(** * windows.pedump: the PE dumping plugin of volatility3

    A shallow embedding of
    [volatility3/framework/plugins/windows/pedump.py] (class [PEDump]) and
    the properties of its orchestration logic: configuration validation,
    target resolution in kernel-module and process mode, per-target error
    handling around the output file, and the naming of output files.

    The plugin talks to collaborators that live outside the file: the
    output sink ([self.open], [seek], [write], [close]), the object
    factory of the context ([self.context.object]) with the PE
    reconstruction generator, the process lister and the session layer
    enumeration.  They are gathered in a record [environment]; every call
    the plugin makes to them is recorded in a trace of events, and the
    sink may answer a call by raising, depending on the whole history of
    calls made so far. *)

From Stdlib Require Import ZArith List String Ascii Strings.Byte Bool Lia.
From Stdlib Require Import HexString DecimalString DecimalZ.
Import ListNotations.

Local Open Scope string_scope.
Local Open Scope list_scope.
Local Open Scope Z_scope.

(** ** Values *)

Definition bytes := list byte.

(** Python truthiness of the values the plugin tests with [if]. *)
Definition truthy_str (s : string) : bool :=
  match s with
  | EmptyString => false
  | String _ _ => true
  end.

Definition truthy_opt_str (o : option string) : bool :=
  match o with
  | None => false
  | Some s => truthy_str s
  end.

Definition truthy_opt_list {A : Type} (o : option (list A)) : bool :=
  match o with
  | None => false
  | Some [] => false
  | Some (_ :: _) => true
  end.

(** ** Exceptions

    The [except] clause of [_write_pe] names four classes.  An exception
    is classified by the first of them it is an instance of;
    [OtherException] stands for every exception that is an instance of
    none ([KeyError], [TypeError], [MemoryError], ...). *)

Inductive exn_class :=
| IOError
| VolatilityException
| OverflowError
| ValueError
| OtherException.

Record pyexn := Exn { exn_cls : exn_class; exn_msg : string }.

Definition caught_by_write_pe (e : pyexn) : bool :=
  match exn_cls e with
  | IOError | VolatilityException | OverflowError | ValueError => true
  | OtherException => false
  end.

(** ** Events and traces *)

Inductive level := DEBUG | WARNING | ERROR.

Inductive event :=
| EvSymbolTable (sub_path filename : string)
| EvOpen (name : string)
| EvObject (type_name : string) (offset : Z) (layer : string)
| EvSeek (name : string) (offset : Z)
| EvWrite (name : string) (data : bytes)
| EvClose (name : string)
| EvIsValid (layer : string) (address : Z)
| EvListProcesses (layer : string) (symbol_table : string)
| EvAddProcessLayer (proc_offset : Z)
| EvSessionLayers (layer : string) (symbol_table : string)
| EvRaise (e : pyexn)
| EvLog (l : level) (msg : string).

Definition trace := list event.

(** ** Data of the collaborators *)

(** A generator of write instructions: the items it yields, in order,
    and how it ends ([None]: exhausted, [Some e]: raises [e] after the
    last item). *)
Record stream := { yields : list (Z * bytes); ending : option pyexn }.

(** The [_IMAGE_DOS_HEADER] object; the plugin only calls [reconstruct]. *)
Record IMAGE_DOS_HEADER := { reconstruct : stream }.

(** The handle [self.open] returns, known by the name it was opened
    under. Its attribute [preferred_filename] belongs to the sink, which
    may change it (a sink renames a file whose name is taken): reading
    it is a question to the environment. *)
Record FileHandle := { opened_as : string }.

(** What [self.context.modules[...]] gives. *)
Record ModuleInfo := { layer_name : string; symbol_table_name : string }.

(** An [_EPROCESS] object as the plugin uses it. [ImageFileName] is the
    name after its cast to a string; [add_process_layer] is the outcome
    of the call of that name. *)
Record EPROCESS := {
  vol_offset : Z;
  UniqueProcessId : Z;
  ImageFileName : string;
  add_process_layer : pyexn + string
}.

Record config := {
  cfg_kernel : string;
  cfg_pid : option (list Z);
  cfg_base : Z;
  cfg_kernel_module : bool
}.

Record environment := {
  BANG : string;
  context_modules : string -> ModuleInfo;
  create_pe_table : string;
  open_raises : trace -> string -> option pyexn;
  context_object : string -> Z -> string -> pyexn + IMAGE_DOS_HEADER;
  seek_raises : trace -> string -> Z -> option pyexn;
  write_raises : trace -> string -> bytes -> option pyexn;
  close_raises : trace -> string -> option pyexn;
  preferred_filename : trace -> string -> string;
  session_layers_of : string -> string -> list string;
  layer_is_valid : string -> Z -> bool;
  process_list : string -> string -> list EPROCESS
}.

(** ** The monad of plugin code

    A computation reads the history of events so far and returns the
    events it adds, with a value or a raised exception. *)

Inductive result (A : Type) :=
| Ok (a : A)
| Raise (e : pyexn).
Arguments Ok {A} a.
Arguments Raise {A} e.

Definition M (A : Type) := trace -> list event * result A.

Definition ret {A : Type} (a : A) : M A := fun _ => ([], Ok a).

Definition bind {A B : Type} (m : M A) (k : A -> M B) : M B :=
  fun h =>
    match m h with
    | (d1, Ok a) => let (d2, r) := k a (h ++ d1) in (d1 ++ d2, r)
    | (d1, Raise e) => (d1, Raise e)
    end.

Declare Scope plugin_scope.
Delimit Scope plugin_scope with plugin.
Notation "x <- m ;; k" := (bind m (fun x => k))
  (at level 61, m at next level, right associativity) : plugin_scope.
Notation "m ;;; k" := (bind m (fun _ => k))
  (at level 61, right associativity) : plugin_scope.
Local Open Scope plugin_scope.

(** A call to a collaborator: the call is recorded, and if the
    collaborator raises, so is the exception. *)
Definition call (ev : event) (raises : trace -> option pyexn) : M unit :=
  fun h =>
    match raises h with
    | None => ([ev], Ok tt)
    | Some e => ([ev; EvRaise e], Raise e)
    end.

Definition call_value {A : Type} (ev : event) (r : pyexn + A) : M A :=
  fun _ =>
    match r with
    | inr a => ([ev], Ok a)
    | inl e => ([ev; EvRaise e], Raise e)
    end.

Definition throw {A : Type} (e : pyexn) : M A :=
  fun _ => ([EvRaise e], Raise e).

Definition vollog (l : level) (msg : string) : M unit :=
  fun _ => ([EvLog l msg], Ok tt).

(** [try: body except (classes) as excp: handler excp] *)
Definition try_except {A : Type} (body : M A) (catches : pyexn -> bool)
    (handler : pyexn -> M A) : M A :=
  fun h =>
    match body h with
    | (d1, Ok a) => (d1, Ok a)
    | (d1, Raise e) =>
        if catches e
        then let (d2, r) := handler e (h ++ d1) in (d1 ++ d2, r)
        else (d1, Raise e)
    end.

(** [for x in g: body x] over a generator [g]. *)
Fixpoint for_items {A : Type} (items : list A) (ending : option pyexn)
    (body : A -> M unit) : M unit :=
  match items with
  | [] =>
      match ending with
      | None => ret tt
      | Some e => throw e
      end
  | x :: rest => body x ;;; for_items rest ending body
  end.

(** ** Formatting *)

(** [str(n)] and [{:d}] of a Python int. *)
Definition format_d (n : Z) : string := NilZero.string_of_int (Z.to_int n).

(** [{:#x}] of a Python int: [0x] and lower-case digits, the sign first. *)
Definition format_x (n : Z) : string := HexString.of_Z n.

(** ["PE.{:#x}.{:d}.{:#x}.dmp".format(proc_offset, pid, base)] *)
Definition pe_file_name (proc_offset pid base : Z) : string :=
  ("PE." ++ format_x proc_offset ++ "." ++ format_d pid ++ "."
         ++ format_x base ++ ".dmp")%string.

Definition dump_failure_message (base : Z) (excp : pyexn) : string :=
  ("Unable to dump dll at offset " ++ format_d base ++ ": "
     ++ exn_msg excp)%string.

Example pe_file_name_ex :
  pe_file_name 0 4 (-255) = "PE.0x0.4.-0xff.dmp" /\
  pe_file_name 0xfa8000e1b040 812 0x140000000
    = "PE.0xfa8000e1b040.812.0x140000000.dmp".
Proof. split; reflexivity. Qed.

(** ** Generators

    A generator function of the plugin, run until it is exhausted or
    raises: the events it adds to the history, the values it yields in
    order, and the exception that ends it, if any. *)

Record gen_result (Y : Type) := GenResult {
  events : list event;
  rows : list Y;
  raised : option pyexn
}.
Arguments GenResult {Y} events rows raised.
Arguments events {Y} g.
Arguments rows {Y} g.
Arguments raised {Y} g.

Definition Gen (Y : Type) := trace -> gen_result Y.

(** The end of the generator body, or a bare [return]. *)
Definition gen_done {Y : Type} : Gen Y := fun _ => GenResult [] [] None.

(** [yield y] as the last statement of a branch. *)
Definition gen_yield {Y : Type} (y : Y) : Gen Y := fun _ => GenResult [] [y] None.

(** A statement [x = m] inside a generator body, followed by [k x]. *)
Definition gen_bind {A Y : Type} (m : M A) (k : A -> Gen Y) : Gen Y :=
  fun h =>
    match m h with
    | (d1, Ok a) =>
        let g := k a (h ++ d1) in
        GenResult (d1 ++ events g) (rows g) (raised g)
    | (d1, Raise e) => GenResult d1 [] (Some e)
    end.

(** Two parts of a generator body, one after the other. *)
Definition gen_seq {Y : Type} (g1 g2 : Gen Y) : Gen Y :=
  fun h =>
    let r1 := g1 h in
    match raised r1 with
    | Some e => r1
    | None =>
        let r2 := g2 (h ++ events r1) in
        GenResult (events r1 ++ events r2) (rows r1 ++ rows r2) (raised r2)
    end.

(** [for x in l: body x] inside a generator body. *)
Fixpoint gen_for {A Y : Type} (l : list A) (body : A -> Gen Y) : Gen Y :=
  match l with
  | [] => gen_done
  | x :: rest => gen_seq (body x) (gen_for rest body)
  end.

(** [for x in g: yield f x] *)
Definition gen_for_yield {X Y : Type} (g : Gen X) (f : X -> Y) : Gen Y :=
  fun h =>
    let r := g h in
    GenResult (events r) (map f (rows r)) (raised r).

Notation "x <~ m ;; k" := (gen_bind m (fun x => k))
  (at level 61, m at next level, right associativity) : plugin_scope.

(** ** The plugin *)

(** A row as the methods yield it: [(pid, proc_name, file_output)]. *)
Definition row := (Z * string * string)%type.

Definition session_not_found_message : string :=
  "Unable to find a session layer with the provided base address mapped in the kernel.".

Definition both_set_message : string :=
  "Only --kernel_module or --pid should be set. Not both".

Definition none_set_message : string :=
  "--kernel_module or --pid must be set".

Section PEDump.

Variable env : environment.
Variable self_config : config.

(** *** Collaborators *)

Definition create_symbol_table (sub_path filename : string) : M string :=
  fun _ => ([EvSymbolTable sub_path filename], Ok (create_pe_table env)).

Definition self_open (name : string) : M FileHandle :=
  call (EvOpen name) (fun h => open_raises env h name) ;;;
  ret {| opened_as := name |}.

Definition self_context_object (type_name : string) (offset : Z)
    (layer : string) : M IMAGE_DOS_HEADER :=
  call_value (EvObject type_name offset layer)
    (context_object env type_name offset layer).

Definition file_seek (file_handle : FileHandle) (offset : Z) : M unit :=
  let name := opened_as file_handle in
  call (EvSeek name offset) (fun h => seek_raises env h name offset).

Definition file_write (file_handle : FileHandle) (data : bytes) : M unit :=
  let name := opened_as file_handle in
  call (EvWrite name data) (fun h => write_raises env h name data).

Definition file_close (file_handle : FileHandle) : M unit :=
  let name := opened_as file_handle in
  call (EvClose name) (fun h => close_raises env h name).

(** [file_handle.preferred_filename], as the sink has it at this point
    of the run. *)
Definition file_preferred_filename (file_handle : FileHandle) : M string :=
  fun h => ([], Ok (preferred_filename env h (opened_as file_handle))).

Definition layer_valid (layer : string) (address : Z) : M bool :=
  fun _ => ([EvIsValid layer address], Ok (layer_is_valid env layer address)).

Definition get_session_layers (layer symbol_table : string)
    : M (list string) :=
  fun _ => ([EvSessionLayers layer symbol_table],
            Ok (session_layers_of env layer symbol_table)).

Definition proc_add_process_layer (proc : EPROCESS) : M string :=
  call_value (EvAddProcessLayer (vol_offset proc)) (add_process_layer proc).

(** Modelled from the spec: [modules.Modules.find_session_layer] is
    outside this file.  The candidates are searched in enumeration
    order for the first one in which the base address resolves to
    mapped memory, and the search stops there; if none does, the
    answer is [None]. *)
Fixpoint find_session_layer (session_layers : list string)
    (base_address : Z) : M (option string) :=
  match session_layers with
  | [] => ret None
  | layer :: rest =>
      mapped <- layer_valid layer base_address ;;
      if mapped then ret (Some layer)
      else find_session_layer rest base_address
  end.

(** Modelled from the spec: [pslist.PsList.create_pid_filter] is
    outside this file.  The filter is an optional allow-list on the
    process identifier: absent or empty, it lets every process pass;
    otherwise the processes whose identifier it lists. *)
Definition create_pid_filter (pid_list : option (list Z))
    (proc : EPROCESS) : bool :=
  match pid_list with
  | None | Some [] => true
  | Some l => existsb (Z.eqb (UniqueProcessId proc)) l
  end.

(** Modelled from the spec: [pslist.PsList.list_processes] is outside
    this file.  It enumerates the live processes and keeps those the
    filter lets pass, in enumeration order. *)
Definition list_processes (layer symbol_table : string)
    (filter_func : EPROCESS -> bool) : M (list EPROCESS) :=
  fun _ => ([EvListProcesses layer symbol_table],
            Ok (filter filter_func (process_list env layer symbol_table))).

(** *** [_write_pe] *)

Definition _write_pe (pe_table_name layer : string) (proc_offset pid : Z)
    : M (option string) :=
  attempt <-
    try_except
      (file_handle <-
         self_open (pe_file_name proc_offset pid (cfg_base self_config)) ;;
       dos_header <-
         self_context_object
           (pe_table_name ++ BANG env ++ "_IMAGE_DOS_HEADER")%string
           (cfg_base self_config) layer ;;
       for_items (yields (reconstruct dos_header))
         (ending (reconstruct dos_header))
         (fun '(offset, data) =>
            file_seek file_handle offset ;;;
            file_write file_handle data) ;;;
       ret (inr file_handle))
      caught_by_write_pe
      (fun excp =>
         vollog DEBUG (dump_failure_message (cfg_base self_config) excp) ;;;
         ret (inl (@None string))) ;;
  match attempt with
  | inl returned => ret returned
  | inr file_handle =>
      file_close file_handle ;;;
      reference <- file_preferred_filename file_handle ;;
      ret (Some reference)
  end.

(** *** [_dump_kernel] *)

Definition _dump_kernel (_k : ModuleInfo) (pe_table_name : string)
    (session_layers : list string) : Gen row :=
  session_layer_name <~
    find_session_layer session_layers (cfg_base self_config) ;;
  if truthy_opt_str session_layer_name then
    let system_pid := 4 in
    file_output <~
      _write_pe pe_table_name
        (match session_layer_name with Some n => n | None => "" end)
        0 system_pid ;;
    if truthy_opt_str file_output then
      gen_yield (system_pid, "Kernel",
                 match file_output with Some f => f | None => "" end)
    else gen_done
  else
    _u <~ vollog WARNING session_not_found_message ;;
    gen_done.

(** *** [_dump_processes] *)

Definition _dump_processes (_k : ModuleInfo) (pe_table_name : string)
    (_s : list string) : Gen row :=
  let filter_func := create_pid_filter (cfg_pid self_config) in
  let kernel := context_modules env (cfg_kernel self_config) in
  procs <~
    list_processes (layer_name kernel) (symbol_table_name kernel)
      filter_func ;;
  gen_for procs (fun proc =>
    let pid := UniqueProcessId proc in
    let proc_name := ImageFileName proc in
    proc_layer_name <~ proc_add_process_layer proc ;;
    file_output <~
      _write_pe pe_table_name proc_layer_name (vol_offset proc) pid ;;
    if truthy_opt_str file_output then
      gen_yield (pid, proc_name,
                 match file_output with Some f => f | None => "" end)
    else gen_done).

(** *** [_generator] *)

Definition _generator : Gen (Z * row) :=
  let kernel := context_modules env (cfg_kernel self_config) in
  pe_table_name <~ create_symbol_table "windows" "pe" ;;
  if cfg_kernel_module self_config && truthy_opt_list (cfg_pid self_config)
  then
    _u <~ vollog ERROR both_set_message ;; gen_done
  else if negb (cfg_kernel_module self_config)
          && negb (truthy_opt_list (cfg_pid self_config))
  then
    _u <~ vollog ERROR none_set_message ;; gen_done
  else
    session_layers <~
      (if cfg_kernel_module self_config
       then get_session_layers (layer_name kernel) (symbol_table_name kernel)
       else ret []) ;;
    let method :=
      if cfg_kernel_module self_config then _dump_kernel
      else _dump_processes in
    gen_for_yield (method kernel pe_table_name session_layers)
      (fun '(pid, proc_name, file_output) =>
         (0, (pid, proc_name, file_output))).

End PEDump.

(** A small run: two session candidates, the second one maps the base. *)
Definition example_env : environment := {|
  BANG := "!";
  context_modules := fun _ => {| layer_name := "layer_name";
                                 symbol_table_name := "symbol_table_name1" |};
  create_pe_table := "pe1";
  open_raises := fun _ _ => None;
  context_object := fun _ _ _ =>
    inr {| reconstruct := {| yields := [(0, [x4d; x5a]); (512, [x90])];
                             ending := None |} |};
  seek_raises := fun _ _ _ => None;
  write_raises := fun _ _ _ => None;
  close_raises := fun _ _ => None;
  preferred_filename := fun _ name => name;
  session_layers_of := fun _ _ => ["session0"; "session1"];
  layer_is_valid := fun l _ => String.eqb l "session1";
  process_list := fun _ _ => []
|}.

Definition example_cfg : config := {|
  cfg_kernel := "kernel";
  cfg_pid := Some [];
  cfg_base := 0x1000;
  cfg_kernel_module := true
|}.

Example generator_example :
  _generator example_env example_cfg [] =
  GenResult
    [ EvSymbolTable "windows" "pe";
      EvSessionLayers "layer_name" "symbol_table_name1";
      EvIsValid "session0" 0x1000;
      EvIsValid "session1" 0x1000;
      EvOpen "PE.0x0.4.0x1000.dmp";
      EvObject "pe1!_IMAGE_DOS_HEADER" 0x1000 "session1";
      EvSeek "PE.0x0.4.0x1000.dmp" 0;
      EvWrite "PE.0x0.4.0x1000.dmp" [x4d; x5a];
      EvSeek "PE.0x0.4.0x1000.dmp" 512;
      EvWrite "PE.0x0.4.0x1000.dmp" [x90];
      EvClose "PE.0x0.4.0x1000.dmp" ]
    [ (0, (4, "Kernel", "PE.0x0.4.0x1000.dmp")) ]
    None.
Proof. reflexivity. Qed.

(** * Properties *)

(** ** The write loop of [_write_pe] *)

Definition write_events (name : string) (items : list (Z * bytes))
    : list event :=
  flat_map (fun '(offset, data) => [EvSeek name offset; EvWrite name data])
    items.

Definition write_loop (env : environment) (file_handle : FileHandle)
    (g : stream) : M unit :=
  for_items (yields g) (ending g)
    (fun '(offset, data) =>
       file_seek env file_handle offset ;;;
       file_write env file_handle data).

(** How a failing loop ends: the generator raised after its last item,
    or [seek] or [write] raised on the first instruction not applied. *)
Definition failing_tail (name : string) (e : pyexn)
    (pending : list (Z * bytes)) (tail : list event) : Prop :=
  (pending = [] /\ tail = [EvRaise e]) \/
  (exists offset data rest,
      pending = (offset, data) :: rest /\
      (tail = [EvSeek name offset; EvRaise e] \/
       tail = [EvSeek name offset; EvWrite name data; EvRaise e])).

Lemma write_events_app name l1 l2 :
  write_events name (l1 ++ l2) = write_events name l1 ++ write_events name l2.
Proof. unfold write_events. apply flat_map_app. Qed.

Lemma write_loop_outcome env fh items ending h d r :
  write_loop env fh {| yields := items; ending := ending |} h = (d, r) ->
  match r with
  | Ok _ => ending = None /\ d = write_events (opened_as fh) items
  | Raise e =>
      exists applied pending tail,
        items = applied ++ pending /\
        d = write_events (opened_as fh) applied ++ tail /\
        failing_tail (opened_as fh) e pending tail
  end.
Proof.
  unfold write_loop; simpl. revert h d r.
  induction items as [|[offset data] rest IH]; intros h d r; simpl.
  - destruct ending as [e|]; cbv [throw ret]; intros [= <- <-].
    + exists [], [], [EvRaise e]. repeat split. left. split; reflexivity.
    + split; reflexivity.
  - unfold bind at 1. unfold bind at 1. unfold file_seek at 1, call at 1.
    destruct (seek_raises env h (opened_as fh) offset) as [e|].
    { intros [= <- <-].
      exists [], ((offset, data) :: rest), [EvSeek (opened_as fh) offset; EvRaise e].
      repeat split. right. exists offset, data, rest. split; [reflexivity|].
      left; reflexivity. }
    unfold file_write at 1, call at 1.
    destruct (write_raises env (h ++ [EvSeek (opened_as fh) offset])
                (opened_as fh) data) as [e|].
    { simpl. intros [= <- <-].
      exists [], ((offset, data) :: rest),
        [EvSeek (opened_as fh) offset;
         EvWrite (opened_as fh) data; EvRaise e].
      repeat split. right. exists offset, data, rest. split; [reflexivity|].
      right; reflexivity. }
    simpl.
    match goal with
    | |- context [for_items rest ending ?b ?h'] =>
        destruct (for_items rest ending b h') as [d2 r2] eqn:E
    end.
    apply IH in E. intros [= <- <-].
    destruct r2 as [u|e].
    + destruct E as [-> ->]. split; reflexivity.
    + destruct E as (applied & pending & tail & -> & -> & Ht).
      exists ((offset, data) :: applied), pending, tail.
      repeat split; assumption.
Qed.

(** ** The outcomes of [_write_pe] *)

Section WritePe.

Variable env : environment.
Variable cfg : config.
Variable pe_table_name layer : string.
Variable proc_offset pid : Z.

Let name := pe_file_name proc_offset pid (cfg_base cfg).
Let type_name := (pe_table_name ++ BANG env ++ "_IMAGE_DOS_HEADER")%string.

(** The body of the [try] block. *)
Definition write_pe_try : M (option string + FileHandle) :=
  file_handle <- self_open env name ;;
  dos_header <- self_context_object env type_name (cfg_base cfg) layer ;;
  write_loop env file_handle (reconstruct dos_header) ;;;
  ret (inr file_handle).

Lemma write_pe_unfold :
  _write_pe env cfg pe_table_name layer proc_offset pid =
  (attempt <-
     try_except write_pe_try caught_by_write_pe
       (fun excp =>
          vollog DEBUG (dump_failure_message (cfg_base cfg) excp) ;;;
          ret (inl None)) ;;
   match attempt with
   | inl returned => ret returned
   | inr file_handle =>
       file_close env file_handle ;;;
       reference <- file_preferred_filename env file_handle ;;
       ret (Some reference)
   end).
Proof. reflexivity. Qed.

(** The three places where the [try] block can fail, with the events
    up to the failure. *)
Inductive try_failure (h : trace) (e : pyexn) : list event -> Prop :=
| OpenRaised :
    open_raises env h name = Some e ->
    try_failure h e [EvOpen name; EvRaise e]
| ObjectRaised :
    open_raises env h name = None ->
    context_object env type_name (cfg_base cfg) layer = inl e ->
    try_failure h e
      [EvOpen name; EvObject type_name (cfg_base cfg) layer; EvRaise e]
| LoopRaised header applied pending tail :
    open_raises env h name = None ->
    context_object env type_name (cfg_base cfg) layer = inr header ->
    yields (reconstruct header) = applied ++ pending ->
    failing_tail name e pending tail ->
    try_failure h e
      (EvOpen name :: EvObject type_name (cfg_base cfg) layer
         :: write_events name applied ++ tail).

(** The [try] block runs to its end: every instruction was applied. *)
Definition try_success (h : trace) (d : list event) : Prop :=
  exists header,
    open_raises env h name = None /\
    context_object env type_name (cfg_base cfg) layer = inr header /\
    ending (reconstruct header) = None /\
    d = EvOpen name :: EvObject type_name (cfg_base cfg) layer
          :: write_events name (yields (reconstruct header)).

Lemma write_pe_try_outcome h d r :
  write_pe_try h = (d, r) ->
  match r with
  | Ok v => v = inr {| opened_as := name |} /\ try_success h d
  | Raise e => try_failure h e d
  end.
Proof.
  unfold write_pe_try, bind at 1, self_open, bind at 1, call at 1.
  destruct (open_raises env h name) as [e|] eqn:Eo.
  { intros [= <- <-]. now constructor. }
  cbn [ret app]. unfold bind at 1, self_context_object, call_value.
  destruct (context_object env type_name (cfg_base cfg) layer)
    as [e|header] eqn:Ec.
  { intros [= <- <-]. now constructor. }
  unfold bind at 1.
  destruct header as [[items ending]]; cbn [reconstruct].
  match goal with
  | |- context [write_loop env ?fh ?g ?h'] =>
      destruct (write_loop env fh g h') as [d2 r2] eqn:El
  end.
  apply write_loop_outcome in El. cbn [opened_as] in El.
  destruct r2 as [u|e].
  - destruct El as [-> ->]. cbn [ret]. intros [= <- <-].
    split; [reflexivity|].
    exists {| reconstruct := {| yields := items; ending := None |} |}.
    cbn [reconstruct yields ending]. rewrite app_nil_r.
    repeat split; assumption.
  - destruct El as (applied & pending & tail & Hi & -> & Ht).
    intros [= <- <-]. cbn [app].
    eapply LoopRaised; eauto.
Qed.

(** The four outcomes of a call of [_write_pe].  On the path that ends
    with [close], the value returned is the [preferred_filename] the
    handle has after the [close]. *)
Inductive write_pe_outcome (h : trace)
    : list event -> result (option string) -> Prop :=
| Skipped d e :
    try_failure h e d ->
    caught_by_write_pe e = true ->
    write_pe_outcome h
      (d ++ [EvLog DEBUG (dump_failure_message (cfg_base cfg) e)])
      (Ok None)
| Escaped d e :
    try_failure h e d ->
    caught_by_write_pe e = false ->
    write_pe_outcome h d (Raise e)
| Dumped d :
    try_success h d ->
    close_raises env (h ++ d) name = None ->
    write_pe_outcome h (d ++ [EvClose name])
      (Ok (Some (preferred_filename env ((h ++ d) ++ [EvClose name]) name)))
| CloseRaised d e :
    try_success h d ->
    close_raises env (h ++ d) name = Some e ->
    write_pe_outcome h (d ++ [EvClose name; EvRaise e]) (Raise e).

Lemma write_pe_cases h d r :
  _write_pe env cfg pe_table_name layer proc_offset pid h = (d, r) ->
  write_pe_outcome h d r.
Proof.
  rewrite write_pe_unfold. unfold bind at 1, try_except.
  destruct (write_pe_try h) as [d1 r1] eqn:Et.
  apply write_pe_try_outcome in Et.
  destruct r1 as [v|e].
  - destruct Et as [-> Hs].
    unfold bind, file_close, call; cbn [opened_as].
    destruct (close_raises env (h ++ d1) name) as [e|] eqn:Ecl;
      cbn [ret]; intros [= <- <-].
    + now apply CloseRaised.
    + now apply Dumped.
  - destruct (caught_by_write_pe e) eqn:Ecaught.
    + unfold bind, vollog, ret. cbn [app]. intros [= <- <-].
      rewrite app_nil_r. now apply Skipped.
    + intros [= <- <-]. now apply Escaped.
Qed.

Lemma try_failure_no_close h e d x :
  try_failure h e d -> ~ In (EvClose x) d.
Proof.
  intros Hf Hin. destruct Hf as [? | ? ? | header applied pending tail ? ? ? Ht].
  - cbn in Hin. intuition discriminate.
  - cbn in Hin. intuition discriminate.
  - cbn in Hin. destruct Hin as [Hin|[Hin|Hin]]; try discriminate.
    apply in_app_or in Hin. destruct Hin as [Hin|Hin].
    + unfold write_events in Hin. apply in_flat_map in Hin.
      destruct Hin as ([o b] & _ & Hin). cbn in Hin. intuition discriminate.
    + destruct Ht as [[_ ->] | (o & b & rest & _ & [-> | ->])];
        cbn in Hin; intuition discriminate.
Qed.

End WritePe.

(** A sink whose second [write] on a file fails: the disk is full. *)
Definition full_disk_env : environment := {|
  BANG := "!";
  context_modules := fun _ => {| layer_name := "layer_name";
                                 symbol_table_name := "symbol_table_name1" |};
  create_pe_table := "pe1";
  open_raises := fun _ _ => None;
  context_object := fun _ _ _ =>
    inr {| reconstruct := {| yields := [(0, [x4d; x5a]); (512, [x90])];
                             ending := None |} |};
  seek_raises := fun _ _ _ => None;
  write_raises := fun _ _ data =>
    match data with
    | [x90] => Some (Exn IOError "No space left on device")
    | _ => None
    end;
  close_raises := fun _ _ => None;
  preferred_filename := fun _ name => name;
  session_layers_of := fun _ _ => ["session0"; "session1"];
  layer_is_valid := fun l _ => String.eqb l "session1";
  process_list := fun _ _ => []
|}.

(** C10: [_write_pe] opens the output handle first, before the header
    object is made.  When a caught exception ends the [try] block the
    call returns [None]: the handle is never closed, although the file
    was created whenever [open] itself did not raise, and the writes
    applied so far stay in it.  [close] is called only on the path where
    the [try] block ran to its end, after every write instruction of the
    generator has been applied; if that [close] returns, the call
    returns some output reference, the [preferred_filename] the handle
    has by then. *)
Theorem close_only_after_all_writes env cfg pe_table_name layer proc_offset
    pid h d r :
  _write_pe env cfg pe_table_name layer proc_offset pid h = (d, r) ->
  let name := pe_file_name proc_offset pid (cfg_base cfg) in
  (exists d', d = EvOpen name :: d') /\
  (r = Ok None ->
     (forall x, ~ In (EvClose x) d) /\
     exists e body,
       caught_by_write_pe e = true /\
       try_failure env cfg pe_table_name layer proc_offset pid h e body /\
       d = body ++ [EvLog DEBUG (dump_failure_message (cfg_base cfg) e)]) /\
  (forall x, In (EvClose x) d ->
     exists body tail,
       try_success env cfg pe_table_name layer proc_offset pid h body /\
       d = body ++ EvClose name :: tail /\
       ((tail = [] /\
         exists f, r = Ok (Some f) /\ f = preferred_filename env (h ++ d) name) \/
        exists e, tail = [EvRaise e] /\ r = Raise e)).
Proof.
  intros Hrun name. apply write_pe_cases in Hrun.
  assert (Hfirst : forall e body,
             try_failure env cfg pe_table_name layer proc_offset pid h e body ->
             exists d', body = EvOpen name :: d').
  { intros e body [ | | ]; eexists; reflexivity. }
  assert (Hsucc : forall body,
             try_success env cfg pe_table_name layer proc_offset pid h body ->
             exists d', body = EvOpen name :: d').
  { intros body (header & _ & _ & _ & ->). eexists; reflexivity. }
  destruct Hrun as [body e Hf Hc | body e Hf Hc | body Hs Hcl | body e Hs Hcl].
  - split; [|split].
    + destruct (Hfirst _ _ Hf) as [d' ->]. eexists; reflexivity.
    + intros _. split.
      * intros x Hin. apply in_app_or in Hin. destruct Hin as [Hin|Hin].
        -- eapply try_failure_no_close; eassumption.
        -- cbn in Hin. intuition discriminate.
      * exists e, body. repeat split; assumption.
    + intros x Hin. exfalso.
      apply in_app_or in Hin. destruct Hin as [Hin|Hin].
      * eapply try_failure_no_close; eassumption.
      * cbn in Hin. intuition discriminate.
  - split; [|split].
    + exact (Hfirst _ _ Hf).
    + discriminate.
    + intros x Hin. exfalso. eapply try_failure_no_close; eassumption.
  - split; [|split].
    + destruct (Hsucc _ Hs) as [d' ->]. eexists; reflexivity.
    + discriminate.
    + intros x _. exists body, []. split; [exact Hs|]. split; [reflexivity|].
      left. split; [reflexivity|]. eexists. split; [reflexivity|].
      rewrite app_assoc. reflexivity.
  - split; [|split].
    + destruct (Hsucc _ Hs) as [d' ->]. eexists; reflexivity.
    + discriminate.
    + intros x _. exists body, [EvRaise e]. repeat split; eauto.
Qed.

Lemma close_only_after_all_writes_witness :
  let name := pe_file_name 0 4 4096 in
  let d := [ EvOpen "PE.0x0.4.0x1000.dmp";
             EvObject "pe1!_IMAGE_DOS_HEADER" 4096 "session1";
             EvSeek "PE.0x0.4.0x1000.dmp" 0;
             EvWrite "PE.0x0.4.0x1000.dmp" [x4d; x5a];
             EvSeek "PE.0x0.4.0x1000.dmp" 512;
             EvWrite "PE.0x0.4.0x1000.dmp" [x90];
             EvRaise (Exn IOError "No space left on device");
             EvLog DEBUG
               "Unable to dump dll at offset 4096: No space left on device" ] in
  let r : result (option string) := Ok None in
  (exists d', d = EvOpen name :: d') /\
  (r = Ok None ->
     (forall x, ~ In (EvClose x) d) /\
     exists e body,
       caught_by_write_pe e = true /\
       try_failure full_disk_env example_cfg "pe1" "session1" 0 4 [] e body /\
       d = body ++ [EvLog DEBUG (dump_failure_message 4096 e)]) /\
  (forall x, In (EvClose x) d ->
     exists body tail,
       try_success full_disk_env example_cfg "pe1" "session1" 0 4 [] body /\
       d = body ++ EvClose name :: tail /\
       ((tail = [] /\
         exists f, r = Ok (Some f) /\
                   f = preferred_filename full_disk_env ([] ++ d) name) \/
        exists e, tail = [EvRaise e] /\ r = Raise e)).
Proof.
  apply (@close_only_after_all_writes full_disk_env example_cfg "pe1"
           "session1" 0 4 []).
  reflexivity.
Defined.

(** ** Kernel-module mode *)

(** The queries the search makes on a run of candidates. *)
Definition probes (base : Z) (layers : list string) : list event :=
  map (fun layer => EvIsValid layer base) layers.

Lemma probes_app base l1 l2 :
  probes base (l1 ++ l2) = probes base l1 ++ probes base l2.
Proof. apply map_app. Qed.

Lemma find_session_layer_cons env layer rest base h :
  find_session_layer env (layer :: rest) base h =
  if layer_is_valid env layer base
  then ([EvIsValid layer base], Ok (Some layer))
  else
    let (d, r) := find_session_layer env rest base (h ++ [EvIsValid layer base]) in
    (EvIsValid layer base :: d, r).
Proof.
  cbn [find_session_layer]. unfold bind, layer_valid.
  destruct (layer_is_valid env layer base); reflexivity.
Qed.

Lemma find_session_layer_none env layers base h :
  (forall l, In l layers -> layer_is_valid env l base = false) ->
  find_session_layer env layers base h = (probes base layers, Ok None).
Proof.
  revert h. induction layers as [|layer rest IH]; intros h Hnone.
  - reflexivity.
  - rewrite find_session_layer_cons, (Hnone layer) by (left; reflexivity).
    rewrite IH by (intros l Hl; apply Hnone; right; exact Hl).
    reflexivity.
Qed.

Lemma find_session_layer_first env l1 c l2 base h :
  (forall l, In l l1 -> layer_is_valid env l base = false) ->
  layer_is_valid env c base = true ->
  find_session_layer env (l1 ++ c :: l2) base h
  = (probes base (l1 ++ [c]), Ok (Some c)).
Proof.
  revert h. induction l1 as [|layer rest IH]; intros h Hnone Hc.
  - cbn [app]. rewrite find_session_layer_cons, Hc. reflexivity.
  - cbn [app]. rewrite find_session_layer_cons,
      (Hnone layer) by (left; reflexivity).
    rewrite IH by (auto; intros l Hl; apply Hnone; right; exact Hl).
    reflexivity.
Qed.

(** Every list of candidates either has a first one that maps the base
    address, or none at all. *)
Lemma first_match_or_none env base layers :
  (exists l1 c l2,
      layers = l1 ++ c :: l2 /\
      (forall l, In l l1 -> layer_is_valid env l base = false) /\
      layer_is_valid env c base = true) \/
  (forall l, In l layers -> layer_is_valid env l base = false).
Proof.
  induction layers as [|layer rest IH].
  - right. intros l [].
  - destruct (layer_is_valid env layer base) eqn:E.
    + left. exists [], layer, rest. repeat split; auto. intros l [].
    + destruct IH as [(l1 & c & l2 & -> & Hn & Hc) | Hn].
      * left. exists (layer :: l1), c, l2. repeat split; auto.
        intros l [<- | Hl]; auto.
      * right. intros l [<- | Hl]; auto.
Qed.

(** A call of [_write_pe] that returns an output reference: the [try]
    block ran to its end, [close] did not raise, and the reference is
    the [preferred_filename] of the handle after the [close]. *)
Lemma write_pe_success_inv env cfg pe_table_name layer proc_offset pid h d f :
  _write_pe env cfg pe_table_name layer proc_offset pid h = (d, Ok (Some f)) ->
  let name := pe_file_name proc_offset pid (cfg_base cfg) in
  exists body,
    try_success env cfg pe_table_name layer proc_offset pid h body /\
    close_raises env (h ++ body) name = None /\
    d = body ++ [EvClose name] /\
    f = preferred_filename env (h ++ d) name.
Proof.
  intros Hrun name. apply write_pe_cases in Hrun.
  inversion Hrun as [ | | body Hs Hcl | ]; subst.
  exists body. repeat split; try assumption.
  rewrite app_assoc. reflexivity.
Qed.

Lemma truthy_str_nonempty s : truthy_str s = true <-> s <> "".
Proof. destruct s; cbn; split; congruence. Qed.

(** The rows and the final exception of a method after one call of
    [_write_pe] that gave [outcome]: the method yields a row when the
    call returned a reference that passes the test [if file_output]. *)
Definition rows_of_outcome (pid : Z) (label : string)
    (outcome : result (option string)) : list row :=
  match outcome with
  | Ok (Some f) => if truthy_str f then [(pid, label, f)] else []
  | _ => []
  end.

Definition raised_of_outcome (outcome : result (option string))
    : option pyexn :=
  match outcome with
  | Raise e => Some e
  | Ok _ => None
  end.

Lemma dump_kernel_not_found env cfg k pe_table_name layers h :
  (forall l, In l layers -> layer_is_valid env l (cfg_base cfg) = false) ->
  _dump_kernel env cfg k pe_table_name layers h =
  GenResult (probes (cfg_base cfg) layers
               ++ [EvLog WARNING session_not_found_message]) [] None.
Proof.
  intros Hnone. unfold _dump_kernel, gen_bind.
  rewrite find_session_layer_none by assumption. reflexivity.
Qed.

Lemma dump_kernel_found env cfg k pe_table_name l1 c l2 h :
  (forall l, In l l1 -> layer_is_valid env l (cfg_base cfg) = false) ->
  layer_is_valid env c (cfg_base cfg) = true ->
  _dump_kernel env cfg k pe_table_name (l1 ++ c :: l2) h =
  if truthy_str c then
    let before := probes (cfg_base cfg) (l1 ++ [c]) in
    let run := _write_pe env cfg pe_table_name c 0 4 (h ++ before) in
    GenResult (before ++ fst run) (rows_of_outcome 4 "Kernel" (snd run))
      (raised_of_outcome (snd run))
  else
    GenResult (probes (cfg_base cfg) (l1 ++ [c])
                 ++ [EvLog WARNING session_not_found_message]) [] None.
Proof.
  intros Hnone Hc. unfold _dump_kernel, gen_bind at 1.
  rewrite find_session_layer_first by assumption.
  cbn [truthy_opt_str]. destruct (truthy_str c); [|reflexivity].
  unfold gen_bind. cbv zeta.
  destruct (_write_pe env cfg pe_table_name c 0 4
              (h ++ probes (cfg_base cfg) (l1 ++ [c]))) as [d [[f|]|e]] eqn:E;
    cbn [fst snd rows_of_outcome raised_of_outcome truthy_opt_str];
    try destruct (truthy_str f);
    try (rewrite app_nil_r; reflexivity); try reflexivity.
Qed.

(** ** The generator *)

(** The row [_generator] yields for a row of the method. *)
Definition tree_row (r : row) : Z * row :=
  let '(pid, proc_name, file_output) := r in (0, (pid, proc_name, file_output)).

Definition is_log (l : level) (ev : event) : bool :=
  match ev, l with
  | EvLog DEBUG _, DEBUG | EvLog WARNING _, WARNING | EvLog ERROR _, ERROR =>
      true
  | _, _ => false
  end.

Definition count_logs (l : level) (evs : list event) : nat :=
  List.length (filter (is_log l) evs).

Definition kernel_of (env : environment) (cfg : config) : ModuleInfo :=
  context_modules env (cfg_kernel cfg).

Definition candidates (env : environment) (cfg : config) : list string :=
  session_layers_of env (layer_name (kernel_of env cfg))
    (symbol_table_name (kernel_of env cfg)).

Definition enumerate_sessions (env : environment) (cfg : config) : event :=
  EvSessionLayers (layer_name (kernel_of env cfg))
    (symbol_table_name (kernel_of env cfg)).

(** What [_generator] does before it looks at the configuration: it
    makes the symbol table of the PE types. *)
Definition setup : list event := [EvSymbolTable "windows" "pe"].

Lemma generator_rejects env cfg h :
  cfg_kernel_module cfg = truthy_opt_list (cfg_pid cfg) ->
  _generator env cfg h =
  GenResult
    (setup ++ [EvLog ERROR (if cfg_kernel_module cfg then both_set_message
                            else none_set_message)]) [] None.
Proof.
  intros Hcfg. unfold _generator, gen_bind at 1, create_symbol_table.
  rewrite <- Hcfg.
  destruct (cfg_kernel_module cfg); reflexivity.
Qed.

Lemma generator_kernel_mode env cfg h :
  cfg_kernel_module cfg = true ->
  truthy_opt_list (cfg_pid cfg) = false ->
  _generator env cfg h =
  let g := _dump_kernel env cfg (kernel_of env cfg) (create_pe_table env)
             (candidates env cfg)
             (h ++ setup ++ [enumerate_sessions env cfg]) in
  GenResult (setup ++ enumerate_sessions env cfg :: events g)
    (map tree_row (rows g)) (raised g).
Proof.
  intros Hk Hp. unfold _generator, gen_bind at 1, create_symbol_table.
  rewrite Hk, Hp. cbn. unfold gen_bind, get_session_layers, gen_for_yield.
  cbn. rewrite <- app_assoc. reflexivity.
Qed.

Lemma generator_process_mode env cfg h :
  cfg_kernel_module cfg = false ->
  truthy_opt_list (cfg_pid cfg) = true ->
  _generator env cfg h =
  let g := _dump_processes env cfg (kernel_of env cfg) (create_pe_table env)
             [] (h ++ setup) in
  GenResult (setup ++ events g) (map tree_row (rows g)) (raised g).
Proof.
  intros Hk Hp. unfold _generator, gen_bind at 1, create_symbol_table.
  rewrite Hk, Hp. cbn. unfold gen_bind at 1, ret, gen_for_yield.
  cbn. rewrite app_nil_r. reflexivity.
Qed.

Lemma count_logs_app l d1 d2 :
  count_logs l (d1 ++ d2) = (count_logs l d1 + count_logs l d2)%nat.
Proof. unfold count_logs. now rewrite filter_app, List.length_app. Qed.

Lemma count_logs_probes l base layers :
  count_logs l (probes base layers) = 0%nat.
Proof.
  induction layers as [|layer rest IH]; [reflexivity|].
  unfold count_logs in *. cbn. destruct l; exact IH.
Qed.

Lemma no_open_in_probes base layers n :
  ~ In (EvOpen n) (probes base layers).
Proof.
  unfold probes. rewrite in_map_iff. intros (l & Hl & _). discriminate.
Qed.

(** A run that takes both selections, as in scenario D. *)
Definition both_cfg : config := {|
  cfg_kernel := "kernel";
  cfg_pid := Some [4; 812];
  cfg_base := 0x140000000;
  cfg_kernel_module := true
|}.

(** C1: when the process-id filter and the [kernel_module] flag are both
    active, or both inactive, the run logs one error and stops.  After
    the symbol table of the PE types is made, that log entry is its only
    event: no process and no session is enumerated, no output is opened,
    so no target is attempted, and the run yields no row. *)
Theorem config_validation env cfg h :
  cfg_kernel_module cfg = truthy_opt_list (cfg_pid cfg) ->
  let r := _generator env cfg h in
  rows r = [] /\
  raised r = None /\
  events r = setup ++ [EvLog ERROR (if cfg_kernel_module cfg
                                    then both_set_message
                                    else none_set_message)] /\
  count_logs ERROR (events r) = 1%nat /\
  (forall n, ~ In (EvOpen n) (events r)).
Proof.
  intros Hcfg r. subst r. rewrite generator_rejects by assumption.
  cbn [rows raised events]. repeat split.
  intros n [Hin | [Hin | []]]; discriminate.
Qed.

Lemma config_validation_witness :
  let r := _generator example_env both_cfg [] in
  rows r = [] /\
  raised r = None /\
  events r = [EvSymbolTable "windows" "pe"; EvLog ERROR both_set_message] /\
  count_logs ERROR (events r) = 1%nat /\
  (forall n, ~ In (EvOpen n) (events r)).
Proof.
  apply (config_validation example_env both_cfg []). reflexivity.
Defined.

(** C3: in kernel-module mode, when no candidate maps the base address,
    the run yields no row and ends normally; after the queries on the
    candidates its only event is one warning, and no output is opened. *)
Theorem unmapped_base_warns_once env cfg h :
  cfg_kernel_module cfg = true ->
  truthy_opt_list (cfg_pid cfg) = false ->
  (forall l, In l (candidates env cfg) ->
             layer_is_valid env l (cfg_base cfg) = false) ->
  let r := _generator env cfg h in
  rows r = [] /\
  raised r = None /\
  events r = setup ++ enumerate_sessions env cfg
               :: probes (cfg_base cfg) (candidates env cfg)
               ++ [EvLog WARNING session_not_found_message] /\
  count_logs WARNING (events r) = 1%nat /\
  (forall n, ~ In (EvOpen n) (events r)).
Proof.
  intros Hk Hp Hnone r. subst r.
  rewrite generator_kernel_mode by assumption. cbv zeta.
  rewrite dump_kernel_not_found by assumption.
  cbn [rows raised events map]. repeat split.
  - change (enumerate_sessions env cfg :: ?l) with ([enumerate_sessions env cfg] ++ l).
    rewrite !count_logs_app, count_logs_probes. reflexivity.
  - intros n [Hin | [Hin | Hin]]; [discriminate | discriminate |].
    apply in_app_or in Hin. destruct Hin as [Hin | [Hin | []]].
    + exact (no_open_in_probes _ _ _ Hin).
    + discriminate.
Qed.

(** With exactly one selection active the run is not rejected: it goes
    on to the resolver of the selected mode. *)
Lemma valid_selection_proceeds env cfg h :
  cfg_kernel_module cfg <> truthy_opt_list (cfg_pid cfg) ->
  exists d,
    events (_generator env cfg h)
    = setup ++ (if cfg_kernel_module cfg then enumerate_sessions env cfg
                else EvListProcesses (layer_name (kernel_of env cfg))
                       (symbol_table_name (kernel_of env cfg))) :: d.
Proof.
  intros Hcfg. destruct (cfg_kernel_module cfg) eqn:Hk.
  - rewrite generator_kernel_mode;
      [|assumption | destruct (truthy_opt_list (cfg_pid cfg)); congruence].
    eexists. reflexivity.
  - rewrite generator_process_mode;
      [|assumption | destruct (truthy_opt_list (cfg_pid cfg)); congruence].
    eexists. reflexivity.
Qed.

(** Kernel-module mode where no session maps the base (scenario C). *)
Definition unmapped_env : environment := {|
  BANG := "!";
  context_modules := fun _ => {| layer_name := "layer_name";
                                 symbol_table_name := "symbol_table_name1" |};
  create_pe_table := "pe1";
  open_raises := fun _ _ => None;
  context_object := fun _ _ _ =>
    inr {| reconstruct := {| yields := []; ending := None |} |};
  seek_raises := fun _ _ _ => None;
  write_raises := fun _ _ _ => None;
  close_raises := fun _ _ => None;
  preferred_filename := fun _ name => name;
  session_layers_of := fun _ _ => ["session0"; "session1"; "session2"];
  layer_is_valid := fun _ _ => false;
  process_list := fun _ _ => []
|}.

Lemma unmapped_base_warns_once_witness :
  let r := _generator unmapped_env example_cfg [] in
  rows r = [] /\
  raised r = None /\
  events r = [ EvSymbolTable "windows" "pe";
               EvSessionLayers "layer_name" "symbol_table_name1";
               EvIsValid "session0" 4096;
               EvIsValid "session1" 4096;
               EvIsValid "session2" 4096;
               EvLog WARNING session_not_found_message ] /\
  count_logs WARNING (events r) = 1%nat /\
  (forall n, ~ In (EvOpen n) (events r)).
Proof.
  apply (unmapped_base_warns_once unmapped_env example_cfg []).
  - reflexivity.
  - reflexivity.
  - intros l _. reflexivity.
Defined.

(** ** The footprint of one call of [_write_pe] *)

(** The events a call for the file [name] on the layer [layer] can add:
    it touches no other file and reads no other layer. *)
Definition write_pe_event (name type_name : string) (base : Z)
    (layer : string) (ev : event) : Prop :=
  match ev with
  | EvOpen n | EvClose n | EvSeek n _ | EvWrite n _ => n = name
  | EvObject t o l => t = type_name /\ o = base /\ l = layer
  | EvRaise _ => True
  | EvLog l _ => l = DEBUG
  | _ => False
  end.

Lemma write_events_footprint name type_name base layer items :
  Forall (write_pe_event name type_name base layer) (write_events name items).
Proof.
  induction items as [|[o b] rest IH]; cbn.
  - constructor.
  - repeat constructor. exact IH.
Qed.

Lemma failing_tail_footprint name type_name base layer e pending tail :
  failing_tail name e pending tail ->
  Forall (write_pe_event name type_name base layer) tail.
Proof.
  intros [[_ ->] | (o & b & rest & _ & [-> | ->])]; repeat constructor.
Qed.

Lemma write_pe_footprint env cfg pe_table_name layer proc_offset pid h d r :
  _write_pe env cfg pe_table_name layer proc_offset pid h = (d, r) ->
  Forall (write_pe_event (pe_file_name proc_offset pid (cfg_base cfg))
            (pe_table_name ++ BANG env ++ "_IMAGE_DOS_HEADER")%string
            (cfg_base cfg) layer) d.
Proof.
  intros Hrun. apply write_pe_cases in Hrun.
  assert (Hf : forall e body,
             try_failure env cfg pe_table_name layer proc_offset pid h e body ->
             Forall (write_pe_event (pe_file_name proc_offset pid (cfg_base cfg))
                       (pe_table_name ++ BANG env ++ "_IMAGE_DOS_HEADER")%string
                       (cfg_base cfg) layer) body).
  { intros e body [ | | header applied pending tail _ _ _ Ht].
    - repeat constructor.
    - repeat constructor.
    - constructor; [reflexivity|]. constructor; [repeat split|].
      apply Forall_app. split.
      + apply write_events_footprint.
      + eapply failing_tail_footprint; eassumption. }
  assert (Hs : forall body,
             try_success env cfg pe_table_name layer proc_offset pid h body ->
             Forall (write_pe_event (pe_file_name proc_offset pid (cfg_base cfg))
                       (pe_table_name ++ BANG env ++ "_IMAGE_DOS_HEADER")%string
                       (cfg_base cfg) layer) body).
  { intros body (header & _ & _ & _ & ->).
    constructor; [reflexivity|]. constructor; [repeat split|].
    apply write_events_footprint. }
  destruct Hrun as [body e Hb _ | body e Hb _ | body Hb _ | body e Hb _].
  - apply Forall_app. split; [eauto|]. repeat constructor.
  - eauto.
  - apply Forall_app. split; [eauto|]. repeat constructor.
  - apply Forall_app. split; [eauto|]. repeat constructor.
Qed.

(** ** Kernel-module mode: the claims *)

(** Kernel-module mode where only the third session maps the base
    (scenario B).  The output directory already holds a file of the
    name the plugin asks for, and the sink gives the new file another
    name. *)
Definition third_env : environment := {|
  BANG := "!";
  context_modules := fun _ => {| layer_name := "layer_name";
                                 symbol_table_name := "symbol_table_name1" |};
  create_pe_table := "pe1";
  open_raises := fun _ _ => None;
  context_object := fun _ _ _ =>
    inr {| reconstruct := {| yields := [(0, [x4d; x5a])]; ending := None |} |};
  seek_raises := fun _ _ _ => None;
  write_raises := fun _ _ _ => None;
  close_raises := fun _ _ => None;
  preferred_filename := fun _ name =>
    if String.eqb name "PE.0x0.4.0x1000.dmp" then "PE.0x0.4.0x1000-1.dmp"
    else name;
  session_layers_of := fun _ _ => ["session0"; "session1"; "session2"];
  layer_is_valid := fun l _ => String.eqb l "session2";
  process_list := fun _ _ => []
|}.

(** C4: in kernel-module mode, when some candidate maps the base address
    and the dump of the first such candidate succeeds with the output
    reference [f], the run yields exactly one row, [(4, "Kernel", f)].
    The file of the target was closed, and [f] is the
    [preferred_filename] its handle has at the end of the run, which
    need not be the name it was opened under.  Layer names and output
    references are non-empty, which the tests [if session_layer_name]
    and [if file_output] rely on. *)
Theorem kernel_dump_one_row env cfg h l1 c l2 d f :
  cfg_kernel_module cfg = true ->
  truthy_opt_list (cfg_pid cfg) = false ->
  candidates env cfg = l1 ++ c :: l2 ->
  (forall l, In l l1 -> layer_is_valid env l (cfg_base cfg) = false) ->
  layer_is_valid env c (cfg_base cfg) = true ->
  c <> "" ->
  _write_pe env cfg (create_pe_table env) c 0 4
    (h ++ setup ++ enumerate_sessions env cfg
       :: probes (cfg_base cfg) (l1 ++ [c]))
    = (d, Ok (Some f)) ->
  f <> "" ->
  let r := _generator env cfg h in
  let name := pe_file_name 0 4 (cfg_base cfg) in
  rows r = [(0, (4, "Kernel", f))] /\
  raised r = None /\
  In (EvClose name) (events r) /\
  f = preferred_filename env (h ++ events r) name.
Proof.
  intros Hk Hp Hl Hnone Hc Hname Hrun Hf r name. subst r name.
  rewrite generator_kernel_mode by assumption. cbv zeta.
  rewrite Hl, dump_kernel_found by assumption.
  assert (Ht : truthy_str c = true) by (apply truthy_str_nonempty; exact Hname).
  assert (Htf : truthy_str f = true) by (apply truthy_str_nonempty; exact Hf).
  rewrite Ht. cbv zeta.
  rewrite <- app_assoc. cbn [app setup] in *. rewrite Hrun.
  cbn [fst snd rows raised events rows_of_outcome raised_of_outcome].
  rewrite Htf. cbn [map tree_row].
  apply write_pe_success_inv in Hrun. cbv zeta in Hrun.
  destruct Hrun as (body & _ & _ & Hd & Hfile).
  split; [reflexivity|]. split; [reflexivity|]. split.
  - right. right. apply in_or_app. right. rewrite Hd.
    apply in_or_app. right. left. reflexivity.
  - rewrite Hfile. f_equal.
    repeat (rewrite <- app_assoc || (progress cbn [app])). reflexivity.
Qed.

Lemma kernel_dump_one_row_witness :
  let r := _generator third_env example_cfg [] in
  let name := pe_file_name 0 4 4096 in
  rows r = [(0, (4, "Kernel", "PE.0x0.4.0x1000-1.dmp"))] /\
  raised r = None /\
  In (EvClose name) (events r) /\
  "PE.0x0.4.0x1000-1.dmp" = preferred_filename third_env ([] ++ events r) name.
Proof.
  apply (@kernel_dump_one_row third_env example_cfg []
           ["session0"; "session1"] "session2" []
           [ EvOpen "PE.0x0.4.0x1000.dmp";
             EvObject "pe1!_IMAGE_DOS_HEADER" 4096 "session2";
             EvSeek "PE.0x0.4.0x1000.dmp" 0;
             EvWrite "PE.0x0.4.0x1000.dmp" [x4d; x5a];
             EvClose "PE.0x0.4.0x1000.dmp" ]).
  - reflexivity.
  - reflexivity.
  - reflexivity.
  - intros l [<- | [<- | []]]; reflexivity.
  - reflexivity.
  - discriminate.
  - reflexivity.
  - discriminate.
Defined.

(** C5: the search for the session layer is first-match.  When the
    candidates before [c] do not map the base address and [c] does, the
    search queries the candidates up to [c], in enumeration order, and no
    later one, and answers [c]; [_dump_kernel] then dumps from [c]: the
    only header object it makes is read from the layer [c]. *)
Theorem first_match_resolution env cfg k pe_table_name l1 c l2 h :
  (forall l, In l l1 -> layer_is_valid env l (cfg_base cfg) = false) ->
  layer_is_valid env c (cfg_base cfg) = true ->
  c <> "" ->
  let g := _dump_kernel env cfg k pe_table_name (l1 ++ c :: l2) h in
  let before := probes (cfg_base cfg) (l1 ++ [c]) in
  find_session_layer env (l1 ++ c :: l2) (cfg_base cfg) h
    = (before, Ok (Some c)) /\
  events g
    = before ++ fst (_write_pe env cfg pe_table_name c 0 4 (h ++ before)) /\
  (forall l a, In (EvIsValid l a) (events g) -> In l (l1 ++ [c])) /\
  (forall t o l, In (EvObject t o l) (events g) -> l = c).
Proof.
  intros Hnone Hc Hname g before. subst g before.
  rewrite find_session_layer_first by assumption.
  rewrite dump_kernel_found by assumption.
  assert (Ht : truthy_str c = true) by (destruct c; [congruence|reflexivity]).
  rewrite Ht. cbv zeta. cbn [events].
  destruct (_write_pe env cfg pe_table_name c 0 4
              (h ++ probes (cfg_base cfg) (l1 ++ [c]))) as [d r] eqn:Hrun.
  cbn [fst]. apply write_pe_footprint in Hrun.
  rewrite Forall_forall in Hrun.
  repeat split.
  - intros l a Hin. apply in_app_or in Hin. destruct Hin as [Hin | Hin].
    + unfold probes in Hin. apply in_map_iff in Hin.
      destruct Hin as (l' & [= -> _] & Hl). exact Hl.
    + apply Hrun in Hin. destruct Hin.
  - intros t o l Hin. apply in_app_or in Hin. destruct Hin as [Hin | Hin].
    + unfold probes in Hin. apply in_map_iff in Hin.
      destruct Hin as (l' & Heq & _). discriminate.
    + apply Hrun in Hin. cbn in Hin. tauto.
Qed.

Lemma first_match_resolution_witness :
  let g := _dump_kernel example_env example_cfg
             (kernel_of example_env example_cfg) "pe1"
             (["session0"] ++ "session1" :: ["session1"; "session0"]) [] in
  let before := probes 4096 (["session0"] ++ ["session1"]) in
  find_session_layer example_env
    (["session0"] ++ "session1" :: ["session1"; "session0"]) 4096 []
    = (before, Ok (Some "session1")) /\
  events g
    = before ++ fst (_write_pe example_env example_cfg "pe1" "session1" 0 4
                       ([] ++ before)) /\
  (forall l a, In (EvIsValid l a) (events g) ->
               In l (["session0"] ++ ["session1"])) /\
  (forall t o l, In (EvObject t o l) (events g) -> l = "session1").
Proof.
  apply (@first_match_resolution example_env example_cfg
           (kernel_of example_env example_cfg) "pe1"
           ["session0"] "session1" ["session1"; "session0"] []).
  - intros l [<- | []]. reflexivity.
  - reflexivity.
  - discriminate.
Defined.

(** Kernel-module mode where every session maps the base. *)
Definition all_mapped_env : environment := {|
  BANG := "!";
  context_modules := fun _ => {| layer_name := "layer_name";
                                 symbol_table_name := "symbol_table_name1" |};
  create_pe_table := "pe1";
  open_raises := fun _ _ => None;
  context_object := fun _ _ _ =>
    inr {| reconstruct := {| yields := [(0, [x4d; x5a])]; ending := None |} |};
  seek_raises := fun _ _ _ => None;
  write_raises := fun _ _ _ => None;
  close_raises := fun _ _ => None;
  preferred_filename := fun _ name => name;
  session_layers_of := fun _ _ => ["session0"; "session1"; "session2"];
  layer_is_valid := fun _ _ => true;
  process_list := fun _ _ => []
|}.

(** C9: with the [kernel_module] flag set a run yields at most one row,
    whatever the candidates are, and a row it yields is [(4, "Kernel", f)].
    Either no output is opened at all and there is no row, or the run
    makes exactly one call of [_write_pe], for identity 4 on a candidate
    that maps the base address, and the row is there exactly when that
    call returns an output reference that passes [if file_output]. *)
Theorem kernel_mode_at_most_one_row env cfg h :
  cfg_kernel_module cfg = true ->
  let r := _generator env cfg h in
  (List.length (rows r) <= 1)%nat /\
  (forall x, In x (rows r) -> exists f, x = (0, (4, "Kernel", f))) /\
  ((rows r = [] /\ forall n, ~ In (EvOpen n) (events r)) \/
   exists before layer d outcome,
     In layer (candidates env cfg) /\
     layer_is_valid env layer (cfg_base cfg) = true /\
     (forall n, ~ In (EvOpen n) before) /\
     _write_pe env cfg (create_pe_table env) layer 0 4 (h ++ before)
       = (d, outcome) /\
     events r = before ++ d /\
     rows r = map tree_row (rows_of_outcome 4 "Kernel" outcome) /\
     raised r = raised_of_outcome outcome).
Proof.
  intros Hk r. subst r.
  destruct (truthy_opt_list (cfg_pid cfg)) eqn:Hp.
  { rewrite generator_rejects by congruence. cbn [rows events].
    split; [cbn; lia|]. split; [intros x []|].
    left. split; [reflexivity|]. intros n [Hin | [Hin | []]]; discriminate. }
  rewrite generator_kernel_mode by assumption. cbv zeta.
  destruct (first_match_or_none env (cfg_base cfg) (candidates env cfg))
    as [(l1 & c & l2 & Hl & Hnone & Hc) | Hnone].
  - rewrite Hl, dump_kernel_found by assumption.
    destruct (truthy_str c) eqn:Ht.
    + cbv zeta.
      destruct (_write_pe env cfg (create_pe_table env) c 0 4
                  ((h ++ setup ++ [enumerate_sessions env cfg])
                     ++ probes (cfg_base cfg) (l1 ++ [c])))
        as [d outcome] eqn:Hrun.
      cbn [fst snd rows events raised].
      split; [destruct outcome as [[f|]|e]; cbn;
              try destruct (truthy_str f); cbn; lia|].
      split.
      { destruct outcome as [[f|]|e]; cbn; try tauto.
        destruct (truthy_str f); cbn; try tauto.
        intros x [<- | []]. eexists; reflexivity. }
      right.
      exists (setup ++ enumerate_sessions env cfg
                :: probes (cfg_base cfg) (l1 ++ [c])),
        c, d, outcome.
      rewrite <- !app_assoc in Hrun. cbn [app setup] in *.
      repeat split; try assumption.
      * apply in_or_app. right. left. reflexivity.
      * intros n [Hin | [Hin | Hin]]; [discriminate | discriminate |].
        exact (no_open_in_probes _ _ _ Hin).
    + cbn [rows events]. split; [cbn; lia|]. split; [intros x []|].
      left. split; [reflexivity|].
      intros n [Hin | [Hin | Hin]]; [discriminate | discriminate |].
      apply in_app_or in Hin. destruct Hin as [Hin | [Hin | []]].
      * exact (no_open_in_probes _ _ _ Hin).
      * discriminate.
  - rewrite dump_kernel_not_found by assumption. cbn [rows events].
    split; [cbn; lia|]. split; [intros x []|].
    left. split; [reflexivity|].
    intros n [Hin | [Hin | Hin]]; [discriminate | discriminate |].
    apply in_app_or in Hin. destruct Hin as [Hin | [Hin | []]].
    + exact (no_open_in_probes _ _ _ Hin).
    + discriminate.
Qed.

Lemma kernel_mode_at_most_one_row_witness :
  let r := _generator all_mapped_env example_cfg [] in
  (List.length (rows r) <= 1)%nat /\
  (forall x, In x (rows r) -> exists f, x = (0, (4, "Kernel", f))) /\
  ((rows r = [] /\ forall n, ~ In (EvOpen n) (events r)) \/
   exists before layer d outcome,
     In layer (candidates all_mapped_env example_cfg) /\
     layer_is_valid all_mapped_env layer 4096 = true /\
     (forall n, ~ In (EvOpen n) before) /\
     _write_pe all_mapped_env example_cfg "pe1" layer 0 4 ([] ++ before)
       = (d, outcome) /\
     events r = before ++ d /\
     rows r = map tree_row (rows_of_outcome 4 "Kernel" outcome) /\
     raised r = raised_of_outcome outcome).
Proof.
  apply (kernel_mode_at_most_one_row all_mapped_env example_cfg []).
  reflexivity.
Defined.

(** ** Process mode *)

(** The body of the loop of [_dump_processes]. *)
Definition process_body (env : environment) (cfg : config)
    (pe_table_name : string) (proc : EPROCESS) : Gen row :=
  let pid := UniqueProcessId proc in
  let proc_name := ImageFileName proc in
  proc_layer_name <~ proc_add_process_layer proc ;;
  file_output <~
    _write_pe env cfg pe_table_name proc_layer_name (vol_offset proc) pid ;;
  if truthy_opt_str file_output then
    gen_yield (pid, proc_name,
               match file_output with Some f => f | None => "" end)
  else gen_done.

(** The processes the resolver yields, in its order. *)
Definition selected_processes (env : environment) (cfg : config)
    : list EPROCESS :=
  filter (create_pid_filter (cfg_pid cfg))
    (process_list env (layer_name (kernel_of env cfg))
       (symbol_table_name (kernel_of env cfg))).

Definition enumerate_processes (env : environment) (cfg : config) : event :=
  EvListProcesses (layer_name (kernel_of env cfg))
    (symbol_table_name (kernel_of env cfg)).

(** A target as a row shows it: its identity and its label. *)
Definition process_target (proc : EPROCESS) : Z * string :=
  (UniqueProcessId proc, ImageFileName proc).

Definition row_target (x : Z * row) : Z * string := fst (snd x).

Lemma dump_processes_unfold env cfg k pe_table_name s h :
  _dump_processes env cfg k pe_table_name s h =
  let g := gen_for (selected_processes env cfg)
             (process_body env cfg pe_table_name)
             (h ++ [enumerate_processes env cfg]) in
  GenResult (enumerate_processes env cfg :: events g) (rows g) (raised g).
Proof. reflexivity. Qed.

Lemma process_body_unfold env cfg pe_table_name proc h :
  process_body env cfg pe_table_name proc h =
  match add_process_layer proc with
  | inl e =>
      GenResult [EvAddProcessLayer (vol_offset proc); EvRaise e] [] (Some e)
  | inr layer =>
      let run := _write_pe env cfg pe_table_name layer (vol_offset proc)
                   (UniqueProcessId proc)
                   (h ++ [EvAddProcessLayer (vol_offset proc)]) in
      GenResult (EvAddProcessLayer (vol_offset proc) :: fst run)
        (rows_of_outcome (UniqueProcessId proc) (ImageFileName proc) (snd run))
        (raised_of_outcome (snd run))
  end.
Proof.
  unfold process_body, gen_bind at 1, proc_add_process_layer, call_value.
  destruct (add_process_layer proc) as [e|layer]; [reflexivity|].
  unfold gen_bind. cbv zeta.
  destruct (_write_pe env cfg pe_table_name layer (vol_offset proc)
              (UniqueProcessId proc)
              (h ++ [EvAddProcessLayer (vol_offset proc)]))
    as [d [[f|]|e]] eqn:E;
    cbn [fst snd rows_of_outcome raised_of_outcome truthy_opt_str app];
    try destruct (truthy_str f);
    try (rewrite app_nil_r; reflexivity); try reflexivity.
Qed.

Lemma gen_for_cons {A Y : Type} (x : A) (rest : list A) (body : A -> Gen Y) h :
  gen_for (x :: rest) body h =
  match raised (body x h) with
  | Some _ => body x h
  | None =>
      let g := gen_for rest body (h ++ events (body x h)) in
      GenResult (events (body x h) ++ events g) (rows (body x h) ++ rows g)
        (raised g)
  end.
Proof. reflexivity. Qed.

Lemma process_body_rows env cfg pe_table_name proc h :
  rows (process_body env cfg pe_table_name proc h) = [] \/
  exists f,
    rows (process_body env cfg pe_table_name proc h)
    = [(UniqueProcessId proc, ImageFileName proc, f)].
Proof.
  rewrite process_body_unfold.
  destruct (add_process_layer proc) as [e|layer]; [left; reflexivity|].
  cbv zeta. cbn [rows].
  destruct (_write_pe env cfg pe_table_name layer (vol_offset proc)
              (UniqueProcessId proc)
              (h ++ [EvAddProcessLayer (vol_offset proc)]))
    as [d [[f|]|e]] eqn:E; cbn; auto.
  destruct (truthy_str f); [right; exists f; reflexivity | left; reflexivity].
Qed.

(** ** Order of the rows *)

(** [in_order l1 l2]: [l1] is [l2] with some elements left out, the
    others in the same order. *)
Inductive in_order {A : Type} : list A -> list A -> Prop :=
| in_order_nil : in_order [] []
| in_order_keep x l1 l2 : in_order l1 l2 -> in_order (x :: l1) (x :: l2)
| in_order_drop x l1 l2 : in_order l1 l2 -> in_order l1 (x :: l2).

Lemma in_order_none {A : Type} (l : list A) : in_order [] l.
Proof. induction l; constructor; assumption. Qed.

Lemma in_order_map {A B : Type} (f : A -> B) l1 l2 :
  in_order l1 l2 -> in_order (map f l1) (map f l2).
Proof. induction 1; cbn; constructor; assumption. Qed.

Lemma gen_for_rows_in_order env cfg pe_table_name procs h :
  in_order
    (map (fun y : row => fst y)
       (rows (gen_for procs (process_body env cfg pe_table_name) h)))
    (map process_target procs).
Proof.
  revert h. induction procs as [|proc rest IH]; intros h.
  - constructor.
  - rewrite gen_for_cons. cbn [map].
    destruct (process_body_rows env cfg pe_table_name proc h) as [Hr | [f Hr]];
      destruct (raised (process_body env cfg pe_table_name proc h));
      cbv zeta; cbn [rows]; rewrite Hr; cbn [app map fst].
    + apply in_order_none.
    + apply in_order_drop, IH.
    + apply in_order_keep, in_order_none.
    + apply in_order_keep, IH.
Qed.

(** The targets in the order in which the resolver yields them: in
    kernel-module mode the first candidate that maps the base address,
    as the system process; in process mode the processes that pass the
    filter. *)
Definition resolver_targets (env : environment) (cfg : config)
    : list (Z * string) :=
  if cfg_kernel_module cfg then
    match find (fun l => layer_is_valid env l (cfg_base cfg))
            (candidates env cfg) with
    | Some _ => [(4, "Kernel")]
    | None => []
    end
  else map process_target (selected_processes env cfg).

Lemma find_first_match {A : Type} (p : A -> bool) l1 c l2 :
  (forall x, In x l1 -> p x = false) -> p c = true ->
  find p (l1 ++ c :: l2) = Some c.
Proof.
  intros Hnone Hc. induction l1 as [|x rest IH]; cbn.
  - now rewrite Hc.
  - rewrite (Hnone x) by (left; reflexivity).
    apply IH. intros y Hy. apply Hnone. right. exact Hy.
Qed.

(** C6: the rows of a run follow the order of the resolver.  The
    identities and labels of the rows, read in the order in which the
    rows are yielded, are those of the resolved targets in the order in
    which the resolver yields the targets, with the targets that gave no
    row left out: no row is moved before an earlier target's row and no
    target gives two rows.  The output reference of a row is whatever
    the sink reported for its target. *)
Theorem rows_in_resolver_order env cfg h :
  in_order (map row_target (rows (_generator env cfg h)))
    (resolver_targets env cfg).
Proof.
  destruct (Bool.bool_dec (cfg_kernel_module cfg)
              (truthy_opt_list (cfg_pid cfg))) as [Hcfg | Hcfg].
  { rewrite generator_rejects by assumption. apply in_order_none. }
  unfold resolver_targets.
  destruct (cfg_kernel_module cfg) eqn:Hk.
  - assert (Hp : truthy_opt_list (cfg_pid cfg) = false)
      by (destruct (truthy_opt_list (cfg_pid cfg)); congruence).
    rewrite generator_kernel_mode by assumption. cbv zeta. cbn [rows].
    destruct (first_match_or_none env (cfg_base cfg) (candidates env cfg))
      as [(l1 & c & l2 & Hl & Hnone & Hc) | Hnone].
    + rewrite Hl, dump_kernel_found by assumption.
      rewrite (find_first_match (fun l => layer_is_valid env l (cfg_base cfg))
                 l1 c l2 Hnone Hc).
      destruct (truthy_str c); [|apply in_order_none].
      cbv zeta.
      destruct (_write_pe env cfg (create_pe_table env) c 0 4
                  ((h ++ setup ++ [enumerate_sessions env cfg])
                     ++ probes (cfg_base cfg) (l1 ++ [c])))
        as [d [[f|]|e]] eqn:Hrun; cbn; try apply in_order_none.
      destruct (truthy_str f); cbn; [|apply in_order_none].
      apply in_order_keep, in_order_nil.
    + rewrite dump_kernel_not_found by assumption. apply in_order_none.
  - assert (Hp : truthy_opt_list (cfg_pid cfg) = true)
      by (destruct (truthy_opt_list (cfg_pid cfg)); congruence).
    rewrite generator_process_mode by assumption. cbv zeta. cbn [rows].
    rewrite dump_processes_unfold. cbv zeta. cbn [rows].
    rewrite map_map.
    rewrite (map_ext (fun x => row_target (tree_row x)) (fun y : row => fst y))
      by (intros [[p n] f]; reflexivity).
    apply gen_for_rows_in_order.
Qed.

(** ** Failures of one target *)

Definition system_process : EPROCESS := {|
  vol_offset := 0xfa8000c9f040;
  UniqueProcessId := 4;
  ImageFileName := "System";
  add_process_layer := inr "layer_name_Process4"
|}.

Definition service_process : EPROCESS := {|
  vol_offset := 0xfa8001e3a060;
  UniqueProcessId := 812;
  ImageFileName := "svchost.exe";
  add_process_layer := inr "layer_name_Process812"
|}.

Definition other_process : EPROCESS := {|
  vol_offset := 0xfa8002b1c980;
  UniqueProcessId := 1300;
  ImageFileName := "explorer.exe";
  add_process_layer := inr "layer_name_Process1300"
|}.

(** Process mode with the filter of scenario A. *)
Definition process_cfg : config := {|
  cfg_kernel := "kernel";
  cfg_pid := Some [4; 812];
  cfg_base := 0x140000000;
  cfg_kernel_module := false
|}.

(** Three live processes; the base address holds no image in the
    address space of the first one. *)
Definition bad_header_env : environment := {|
  BANG := "!";
  context_modules := fun _ => {| layer_name := "layer_name";
                                 symbol_table_name := "symbol_table_name1" |};
  create_pe_table := "pe1";
  open_raises := fun _ _ => None;
  context_object := fun _ _ layer =>
    if String.eqb layer "layer_name_Process4"
    then inr {| reconstruct :=
                  {| yields := [];
                     ending := Some (Exn ValueError
                                 "e_magic 0000 is not a valid DOS signature.") |} |}
    else inr {| reconstruct := {| yields := [(0, [x4d; x5a])];
                                  ending := None |} |};
  seek_raises := fun _ _ _ => None;
  write_raises := fun _ _ _ => None;
  close_raises := fun _ _ => None;
  preferred_filename := fun _ name => name;
  session_layers_of := fun _ _ => [];
  layer_is_valid := fun _ _ => false;
  process_list := fun _ _ => [system_process; other_process; service_process]
|}.

(** The same processes, all with an image at the base address; the sink
    fails when the first output file is closed. *)
Definition close_fails_env : environment := {|
  BANG := "!";
  context_modules := fun _ => {| layer_name := "layer_name";
                                 symbol_table_name := "symbol_table_name1" |};
  create_pe_table := "pe1";
  open_raises := fun _ _ => None;
  context_object := fun _ _ _ =>
    inr {| reconstruct := {| yields := [(0, [x4d; x5a])]; ending := None |} |};
  seek_raises := fun _ _ _ => None;
  write_raises := fun _ _ _ => None;
  close_raises := fun _ name =>
    if String.eqb name "PE.0xfa8000c9f040.4.0x140000000.dmp"
    then Some (Exn IOError "No space left on device")
    else None;
  preferred_filename := fun _ name => name;
  session_layers_of := fun _ _ => [];
  layer_is_valid := fun _ _ => false;
  process_list := fun _ _ => [system_process; other_process; service_process]
|}.

(** C2: per-target isolation breaks at [close].  The handler of
    [_write_pe] names [IOError] and guards [open], [seek] and [write] of
    the sink, but [file_handle.close()] stands after the [try] block.
    Here the sink fails when the first output file is closed: the
    exception is of a class the handler names, yet it is not caught and
    not logged, it ends the run, and the next selected process, whose
    dump would succeed, is never attempted. *)
Lemma close_failure_aborts_batch :
  let r := _generator close_fails_env process_cfg [] in
  let failure := Exn IOError "No space left on device" in
  selected_processes close_fails_env process_cfg
    = [system_process; service_process] /\
  caught_by_write_pe failure = true /\
  In (EvRaise failure) (events r) /\
  raised r = Some failure /\
  rows r = [] /\
  count_logs DEBUG (events r) = 0%nat /\
  (forall n, In (EvOpen n) (events r) ->
             n = "PE.0xfa8000c9f040.4.0x140000000.dmp") /\
  snd (_write_pe close_fails_env process_cfg "pe1" "layer_name_Process812"
         (vol_offset service_process) 812 [])
    = Ok (Some "PE.0xfa8001e3a060.812.0x140000000.dmp").
Proof.
  cbv zeta. repeat split.
  - cbn. tauto.
  - intros n Hin. cbn in Hin.
    repeat (destruct Hin as [Hin | Hin]; try discriminate Hin).
    + now injection Hin as <-.
    + destruct Hin.
Qed.

(** Inside the guarded region the isolation holds: an exception of one
    of the four classes of the handler
    that is raised inside the [try] block of [_write_pe] (by opening the
    output, by making the header object, by the reconstruction generator,
    by [seek] or by [write]) is caught there.  The call logs one entry
    at debug level and returns [None]; the target gives no row, and the
    loop of [_dump_processes] goes on with the next process, whose rows
    and outcome are those of the loop on the processes that remain. *)
Theorem caught_failure_skips_target env cfg pe_table_name proc rest layer h
    body e :
  add_process_layer proc = inr layer ->
  write_pe_try env cfg pe_table_name layer (vol_offset proc)
    (UniqueProcessId proc) (h ++ [EvAddProcessLayer (vol_offset proc)])
    = (body, Raise e) ->
  caught_by_write_pe e = true ->
  let entry := EvLog DEBUG (dump_failure_message (cfg_base cfg) e) in
  let skipped := EvAddProcessLayer (vol_offset proc) :: body ++ [entry] in
  let g := gen_for rest (process_body env cfg pe_table_name) (h ++ skipped) in
  _write_pe env cfg pe_table_name layer (vol_offset proc) (UniqueProcessId proc)
    (h ++ [EvAddProcessLayer (vol_offset proc)]) = (body ++ [entry], Ok None) /\
  try_failure env cfg pe_table_name layer (vol_offset proc)
    (UniqueProcessId proc) (h ++ [EvAddProcessLayer (vol_offset proc)]) e body /\
  (forall x, ~ In (EvClose x) (body ++ [entry])) /\
  gen_for (proc :: rest) (process_body env cfg pe_table_name) h
    = GenResult (skipped ++ events g) (rows g) (raised g).
Proof.
  intros Hlayer Htry Hcaught entry skipped g.
  assert (Hrun : _write_pe env cfg pe_table_name layer (vol_offset proc)
                   (UniqueProcessId proc)
                   (h ++ [EvAddProcessLayer (vol_offset proc)])
                 = (body ++ [entry], Ok None)).
  { rewrite write_pe_unfold. unfold bind at 1, try_except.
    rewrite Htry, Hcaught. unfold bind, vollog, ret. cbn [app].
    rewrite app_nil_r. reflexivity. }
  pose proof (write_pe_try_outcome _ _ _ _ _ _ _ _ _ Htry) as Hfail.
  cbv beta iota in Hfail.
  split; [exact Hrun|]. split; [exact Hfail|]. split.
  { intros x Hin. apply in_app_or in Hin. destruct Hin as [Hin | Hin].
    - eapply try_failure_no_close; eassumption.
    - cbn in Hin. destruct Hin as [Hin | []]. discriminate. }
  rewrite gen_for_cons, process_body_unfold, Hlayer. cbv zeta.
  rewrite Hrun. cbn [fst snd raised rows events rows_of_outcome
                       raised_of_outcome app].
  reflexivity.
Qed.

Lemma caught_failure_skips_target_witness :
  let e := Exn ValueError "e_magic 0000 is not a valid DOS signature." in
  let name := "PE.0xfa8000c9f040.4.0x140000000.dmp" in
  let body := [ EvOpen name;
                EvObject "pe1!_IMAGE_DOS_HEADER" 0x140000000
                  "layer_name_Process4";
                EvRaise e ] in
  let entry := EvLog DEBUG (dump_failure_message 0x140000000 e) in
  let skipped := EvAddProcessLayer 0xfa8000c9f040 :: body ++ [entry] in
  let g := gen_for [service_process]
             (process_body bad_header_env process_cfg "pe1") ([] ++ skipped) in
  _write_pe bad_header_env process_cfg "pe1" "layer_name_Process4"
    0xfa8000c9f040 4 ([] ++ [EvAddProcessLayer 0xfa8000c9f040])
    = (body ++ [entry], Ok None) /\
  try_failure bad_header_env process_cfg "pe1" "layer_name_Process4"
    0xfa8000c9f040 4 ([] ++ [EvAddProcessLayer 0xfa8000c9f040]) e body /\
  (forall x, ~ In (EvClose x) (body ++ [entry])) /\
  gen_for [system_process; service_process]
    (process_body bad_header_env process_cfg "pe1") []
    = GenResult (skipped ++ events g) (rows g) (raised g).
Proof.
  apply (@caught_failure_skips_target bad_header_env process_cfg "pe1"
           system_process [service_process] "layer_name_Process4" []).
  - reflexivity.
  - reflexivity.
  - reflexivity.
Defined.

(** Scenario A with a bad header in the first process: the second
    process still gives its row. *)
Example sibling_still_dumped :
  let r := _generator bad_header_env process_cfg [] in
  rows r = [(0, (812, "svchost.exe", "PE.0xfa8001e3a060.812.0x140000000.dmp"))]
  /\ raised r = None
  /\ count_logs DEBUG (events r) = 1%nat.
Proof. repeat split. Qed.

(** ** Names of the output files *)

Fixpoint dotless (s : string) : bool :=
  match s with
  | EmptyString => true
  | String c rest => negb (Ascii.eqb c ".") && dotless rest
  end.

(** A text without a dot, a dot and a rest: both parts are determined. *)
Lemma split_at_dot a a' r r' :
  dotless a = true -> dotless a' = true ->
  (a ++ String "." r)%string = (a' ++ String "." r')%string ->
  a = a' /\ r = r'.
Proof.
  revert a'. induction a as [|c a IH]; intros [|c' a'] Ha Ha' Heq; cbn in *.
  - injection Heq as <-. split; reflexivity.
  - injection Heq as <- _. cbn in Ha'. discriminate.
  - injection Heq as -> _. cbn in Ha. discriminate.
  - injection Heq as <- Heq.
    apply andb_true_iff in Ha, Ha'.
    destruct (IH a' (proj2 Ha) (proj2 Ha') Heq) as [<- <-].
    split; reflexivity.
Qed.

Fixpoint hex_digits_dotless (p : positive) (rest : string) {struct p} :
  dotless rest = true -> dotless (HexString.Raw.of_pos p rest) = true.
Proof.
  intros Hrest.
  do 4 try destruct p as [p|p|];
    cbn [HexString.Raw.of_pos];
    try (apply hex_digits_dotless);
    cbn; exact Hrest.
Qed.

Lemma format_x_dotless n : dotless (format_x n) = true.
Proof.
  destruct n as [|p|p]; cbn; [reflexivity| |];
    apply hex_digits_dotless; reflexivity.
Qed.

Lemma decimal_digits_dotless d : dotless (NilEmpty.string_of_uint d) = true.
Proof. induction d; cbn; auto. Qed.

Lemma format_d_dotless n : dotless (format_d n) = true.
Proof.
  unfold format_d.
  destruct (Z.to_int n) as [d|d]; cbn [NilZero.string_of_int dotless];
    rewrite ?andb_true_l;
    (destruct d; [reflexivity | apply decimal_digits_dotless ..]).
Qed.

Lemma format_x_inj a b : format_x a = format_x b -> a = b.
Proof.
  unfold format_x. intros Heq.
  rewrite <- (HexString.to_Z_of_Z a), <- (HexString.to_Z_of_Z b), Heq.
  reflexivity.
Qed.

Lemma to_int_proper n : Z.to_int n <> Decimal.Pos Decimal.Nil
                        /\ Z.to_int n <> Decimal.Neg Decimal.Nil.
Proof.
  destruct n as [|p|p]; cbn; split; try discriminate;
    intros [= H]; exact (DecimalPos.Unsigned.to_uint_nonnil p H).
Qed.

Lemma format_d_inj a b : format_d a = format_d b -> a = b.
Proof.
  unfold format_d. intros Heq.
  apply DecimalZ.to_int_inj.
  assert (H : Some (Z.to_int a) = Some (Z.to_int b)).
  { rewrite <- (NilZero.isi (Z.to_int a)), <- (NilZero.isi (Z.to_int b)), Heq
      by apply to_int_proper.
    reflexivity. }
  now injection H.
Qed.

Lemma pe_file_name_inj o1 p1 b1 o2 p2 b2 :
  pe_file_name o1 p1 b1 = pe_file_name o2 p2 b2 ->
  o1 = o2 /\ p1 = p2 /\ b1 = b2.
Proof.
  unfold pe_file_name. cbn [String.append]. intros [= Heq].
  apply split_at_dot in Heq; try apply format_x_dotless.
  destruct Heq as [Ho Heq].
  apply split_at_dot in Heq; try apply format_d_dotless.
  destruct Heq as [Hp Heq].
  apply split_at_dot in Heq; try apply format_x_dotless.
  destruct Heq as [Hb _].
  auto using format_x_inj, format_d_inj.
Qed.

Lemma write_pe_opens_first env cfg pe_table_name layer proc_offset pid h d r :
  _write_pe env cfg pe_table_name layer proc_offset pid h = (d, r) ->
  exists d', d = EvOpen (pe_file_name proc_offset pid (cfg_base cfg)) :: d'.
Proof.
  intros Hrun. apply write_pe_cases in Hrun.
  destruct Hrun as [b e Hb _ | b e Hb _ | b Hb _ | b e Hb _].
  1, 2: destruct Hb; cbn; eexists; reflexivity.
  1, 2: destruct Hb as (header & _ & _ & _ & ->); cbn; eexists; reflexivity.
Qed.

(** C7: the name of the output file is [pe_file_name] of the process
    object offset, the process id and the base address, whatever the
    layer, the collaborators and the history are; two targets of a run
    that differ in offset or process id get different names. *)
Theorem output_names_distinct env cfg pe_table_name
    layer1 offset1 pid1 h1 layer2 offset2 pid2 h2 :
  (offset1, pid1) <> (offset2, pid2) ->
  exists name1 d1 name2 d2,
    fst (_write_pe env cfg pe_table_name layer1 offset1 pid1 h1)
      = EvOpen name1 :: d1 /\
    fst (_write_pe env cfg pe_table_name layer2 offset2 pid2 h2)
      = EvOpen name2 :: d2 /\
    name1 = pe_file_name offset1 pid1 (cfg_base cfg) /\
    name2 = pe_file_name offset2 pid2 (cfg_base cfg) /\
    name1 <> name2.
Proof.
  intros Hdiff.
  destruct (_write_pe env cfg pe_table_name layer1 offset1 pid1 h1)
    as [e1 r1] eqn:E1.
  destruct (_write_pe env cfg pe_table_name layer2 offset2 pid2 h2)
    as [e2 r2] eqn:E2.
  destruct (write_pe_opens_first _ _ _ _ _ _ _ _ _ E1) as [d1 ->].
  destruct (write_pe_opens_first _ _ _ _ _ _ _ _ _ E2) as [d2 ->].
  exists (pe_file_name offset1 pid1 (cfg_base cfg)), d1,
    (pe_file_name offset2 pid2 (cfg_base cfg)), d2.
  repeat split.
  intros Heq. apply pe_file_name_inj in Heq.
  destruct Heq as (-> & -> & _). apply Hdiff. reflexivity.
Qed.

Lemma output_names_distinct_witness :
  exists name1 d1 name2 d2,
    fst (_write_pe bad_header_env process_cfg "pe1" "layer_name_Process4"
           0xfa8000c9f040 4 [])
      = EvOpen name1 :: d1 /\
    fst (_write_pe bad_header_env process_cfg "pe1" "layer_name_Process812"
           0xfa8001e3a060 812 [])
      = EvOpen name2 :: d2 /\
    name1 = pe_file_name 0xfa8000c9f040 4 0x140000000 /\
    name2 = pe_file_name 0xfa8001e3a060 812 0x140000000 /\
    name1 <> name2.
Proof.
  apply (@output_names_distinct bad_header_env process_cfg "pe1"
           "layer_name_Process4" 0xfa8000c9f040 4 []
           "layer_name_Process812" 0xfa8001e3a060 812 []).
  discriminate.
Defined.

(** * Further properties of the plugin *)

(** ** One call of [_write_pe], path by path *)

(** The events of the [try] block are calls of the sink and of the
    object factory, and raised exceptions: the block logs nothing. *)
Definition try_event (ev : event) : Prop :=
  match ev with
  | EvOpen _ | EvObject _ _ _ | EvSeek _ _ | EvWrite _ _ | EvRaise _ => True
  | _ => False
  end.

Lemma write_events_try_events name items :
  Forall try_event (write_events name items).
Proof.
  induction items as [|[o b] rest IH]; cbn; repeat constructor. exact IH.
Qed.

Lemma try_failure_events env cfg pe_table_name layer proc_offset pid h e d :
  try_failure env cfg pe_table_name layer proc_offset pid h e d ->
  Forall try_event d.
Proof.
  intros [ | | header applied pending tail _ _ _ Ht]; repeat constructor.
  apply Forall_app. split; [apply write_events_try_events|].
  destruct Ht as [[_ ->] | (o & b & rest & _ & [-> | ->])]; repeat constructor.
Qed.

Lemma try_success_events env cfg pe_table_name layer proc_offset pid h d :
  try_success env cfg pe_table_name layer proc_offset pid h d ->
  Forall try_event d.
Proof.
  intros (header & _ & _ & _ & ->). repeat constructor.
  apply write_events_try_events.
Qed.

Lemma count_logs_try_events l d :
  Forall try_event d -> count_logs l d = 0%nat.
Proof.
  induction 1 as [|ev rest Hev _ IH]; [reflexivity|].
  unfold count_logs in *. destruct ev; try destruct Hev; cbn; exact IH.
Qed.

Lemma write_pe_log_counts env cfg pe_table_name layer proc_offset pid h d r :
  _write_pe env cfg pe_table_name layer proc_offset pid h = (d, r) ->
  count_logs DEBUG d = match r with Ok None => 1%nat | _ => 0%nat end /\
  count_logs WARNING d = 0%nat /\
  count_logs ERROR d = 0%nat.
Proof.
  intros Hrun. apply write_pe_cases in Hrun.
  destruct Hrun as [b e Hb _ | b e Hb _ | b Hb _ | b e Hb _];
    try apply try_failure_events in Hb; try apply try_success_events in Hb;
    rewrite ?count_logs_app, !(count_logs_try_events _ _ Hb); repeat split.
Qed.

(** A sink that never raises. *)
Definition sink_never_raises (env : environment) : Prop :=
  (forall h name, open_raises env h name = None) /\
  (forall h name offset, seek_raises env h name offset = None) /\
  (forall h name data, write_raises env h name data = None) /\
  (forall h name, close_raises env h name = None).

Lemma write_loop_applies_all env fh items h :
  (forall h name offset, seek_raises env h name offset = None) ->
  (forall h name data, write_raises env h name data = None) ->
  write_loop env fh {| yields := items; ending := None |} h
  = (write_events (opened_as fh) items, Ok tt).
Proof.
  intros Hseek Hwrite. unfold write_loop; cbn [yields ending]. revert h.
  induction items as [|[offset data] rest IH]; intros h; cbn [for_items].
  - reflexivity.
  - unfold bind at 1. unfold bind at 1. unfold file_seek at 1, call at 1.
    rewrite Hseek. unfold file_write at 1, call at 1. rewrite Hwrite.
    cbn [app]. rewrite IH. reflexivity.
Qed.

(** X1: when the sink never raises, the header object can be made and
    its generator ends normally, what [_write_pe] does is: open the
    file, make the header object at the base address, then for every
    instruction of the generator, in the order of the generator, one
    [seek] to its offset followed by one [write] of its data, and at
    last one [close].  It returns the [preferred_filename] the handle
    has after that [close], which is the sink's to choose. *)
Theorem write_pe_applies_every_instruction env cfg pe_table_name layer
    proc_offset pid h header :
  sink_never_raises env ->
  context_object env (pe_table_name ++ BANG env ++ "_IMAGE_DOS_HEADER")%string
    (cfg_base cfg) layer = inr header ->
  ending (reconstruct header) = None ->
  let name := pe_file_name proc_offset pid (cfg_base cfg) in
  let d := EvOpen name
             :: EvObject (pe_table_name ++ BANG env
                            ++ "_IMAGE_DOS_HEADER")%string
                  (cfg_base cfg) layer
             :: write_events name (yields (reconstruct header))
             ++ [EvClose name] in
  _write_pe env cfg pe_table_name layer proc_offset pid h
  = (d, Ok (Some (preferred_filename env (h ++ d) name))).
Proof.
  intros (Hopen & Hseek & Hwrite & Hclose) Hobject Hend name d.
  rewrite write_pe_unfold. unfold bind at 1, try_except.
  assert (Htry : write_pe_try env cfg pe_table_name layer proc_offset pid h
                 = (EvOpen name
                      :: EvObject (pe_table_name ++ BANG env
                                     ++ "_IMAGE_DOS_HEADER")%string
                           (cfg_base cfg) layer
                      :: write_events name (yields (reconstruct header)),
                    Ok (inr {| opened_as := name |}))).
  { unfold write_pe_try, bind at 1, self_open, bind at 1, call at 1.
    rewrite Hopen. cbn [ret app].
    unfold bind at 1, self_context_object, call_value. rewrite Hobject.
    unfold bind at 1.
    destruct header as [[items stop]]. cbn in Hend. subst stop.
    cbn [reconstruct yields].
    rewrite write_loop_applies_all by assumption.
    cbn [opened_as ret app]. rewrite app_nil_r. reflexivity. }
  rewrite Htry.
  unfold bind, file_close, call, file_preferred_filename, ret.
  cbn [opened_as]. rewrite Hclose. subst d.
  repeat (rewrite <- app_assoc || rewrite app_nil_r || (progress cbn [app])).
  reflexivity.
Qed.

Lemma write_pe_applies_every_instruction_witness :
  _write_pe third_env example_cfg "pe1" "session2" 0 4 []
  = ([ EvOpen "PE.0x0.4.0x1000.dmp";
       EvObject "pe1!_IMAGE_DOS_HEADER" 4096 "session2";
       EvSeek "PE.0x0.4.0x1000.dmp" 0;
       EvWrite "PE.0x0.4.0x1000.dmp" [x4d; x5a];
       EvClose "PE.0x0.4.0x1000.dmp" ],
     Ok (Some "PE.0x0.4.0x1000-1.dmp")).
Proof.
  apply (@write_pe_applies_every_instruction third_env example_cfg "pe1"
           "session2" 0 4 []
           {| reconstruct := {| yields := [(0, [x4d; x5a])];
                                ending := None |} |}).
  - repeat split.
  - reflexivity.
  - reflexivity.
Defined.

(** X2: an exception leaves [_write_pe] in two ways only.  Either it is
    of none of the four classes of the handler and was raised inside the
    [try] block, or it was raised by the final [close], after every
    instruction had been applied.  An exception of the four classes never
    escapes from the [try] block; and a call that raises logs nothing. *)
Theorem write_pe_raises_only_uncaught_or_close env cfg pe_table_name layer
    proc_offset pid h d e :
  _write_pe env cfg pe_table_name layer proc_offset pid h = (d, Raise e) ->
  let name := pe_file_name proc_offset pid (cfg_base cfg) in
  ((caught_by_write_pe e = false /\
    try_failure env cfg pe_table_name layer proc_offset pid h e d /\
    forall x, ~ In (EvClose x) d) \/
   (exists body,
       try_success env cfg pe_table_name layer proc_offset pid h body /\
       close_raises env (h ++ body) name = Some e /\
       d = body ++ [EvClose name; EvRaise e])) /\
  (forall l msg, ~ In (EvLog l msg) d).
Proof.
  intros Hrun name. apply write_pe_cases in Hrun.
  inversion Hrun as [ | body e' Hf Hc | | body e' Hs Hcl]; subst.
  - split.
    + left. repeat split; try assumption.
      intros x. eapply try_failure_no_close; eassumption.
    + intros l msg Hin. apply try_failure_events in Hf.
      rewrite Forall_forall in Hf. exact (Hf _ Hin).
  - split.
    + right. exists body. repeat split; assumption.
    + intros l msg Hin. apply try_success_events in Hs.
      rewrite Forall_forall in Hs.
      apply in_app_or in Hin. destruct Hin as [Hin | Hin].
      * exact (Hs _ Hin).
      * cbn in Hin. intuition discriminate.
Qed.

Lemma write_pe_raises_only_uncaught_or_close_witness :
  let name := pe_file_name 0xfa8000c9f040 4 0x140000000 in
  let e := Exn IOError "No space left on device" in
  let d := [ EvOpen name;
             EvObject "pe1!_IMAGE_DOS_HEADER" 0x140000000 "layer_name_Process4";
             EvSeek name 0; EvWrite name [x4d; x5a];
             EvClose name; EvRaise e ] in
  ((caught_by_write_pe e = false /\
    try_failure close_fails_env process_cfg "pe1" "layer_name_Process4"
      0xfa8000c9f040 4 [] e d /\
    forall x, ~ In (EvClose x) d) \/
   (exists body,
       try_success close_fails_env process_cfg "pe1" "layer_name_Process4"
         0xfa8000c9f040 4 [] body /\
       close_raises close_fails_env ([] ++ body) name = Some e /\
       d = body ++ [EvClose name; EvRaise e])) /\
  (forall l msg, ~ In (EvLog l msg) d).
Proof.
  apply (@write_pe_raises_only_uncaught_or_close close_fails_env process_cfg
           "pe1" "layer_name_Process4" 0xfa8000c9f040 4 []).
  reflexivity.
Defined.

(** X3: a call of [_write_pe] touches one file and one layer.  Every
    [open], [seek], [write] and [close] it makes is on the file named
    after its own offset, process id and base address; the only object
    it makes is the DOS header of the PE table at the base address in
    the layer it was given; and it logs at debug level only. *)
Theorem write_pe_touches_own_file_only env cfg pe_table_name layer
    proc_offset pid h :
  let d := fst (_write_pe env cfg pe_table_name layer proc_offset pid h) in
  let name := pe_file_name proc_offset pid (cfg_base cfg) in
  (forall n, In (EvOpen n) d -> n = name) /\
  (forall n o, In (EvSeek n o) d -> n = name) /\
  (forall n b, In (EvWrite n b) d -> n = name) /\
  (forall n, In (EvClose n) d -> n = name) /\
  (forall t o l, In (EvObject t o l) d ->
     t = (pe_table_name ++ BANG env ++ "_IMAGE_DOS_HEADER")%string /\
     o = cfg_base cfg /\ l = layer) /\
  (forall l msg, In (EvLog l msg) d -> l = DEBUG) /\
  (forall l a, ~ In (EvIsValid l a) d) /\
  (forall o, ~ In (EvAddProcessLayer o) d).
Proof.
  cbv zeta.
  destruct (_write_pe env cfg pe_table_name layer proc_offset pid h)
    as [d r] eqn:Hrun.
  apply write_pe_footprint in Hrun. rewrite Forall_forall in Hrun.
  cbn [fst].
  repeat split; unfold not; intros;
    match goal with
    | H : In _ d |- _ => apply Hrun in H; cbn in H
    end; tauto.
Qed.

(** A sink on which no file can be created. *)
Definition read_only_env : environment := {|
  BANG := "!";
  context_modules := fun _ => {| layer_name := "layer_name";
                                 symbol_table_name := "symbol_table_name1" |};
  create_pe_table := "pe1";
  open_raises := fun _ _ => Some (Exn IOError "Read-only file system");
  context_object := fun _ _ _ =>
    inr {| reconstruct := {| yields := [(0, [x4d; x5a])]; ending := None |} |};
  seek_raises := fun _ _ _ => None;
  write_raises := fun _ _ _ => None;
  close_raises := fun _ _ => None;
  preferred_filename := fun _ name => name;
  session_layers_of := fun _ _ => ["session0"];
  layer_is_valid := fun _ _ => true;
  process_list := fun _ _ => [system_process; other_process; service_process]
|}.

(** X4: when [open] itself raises, nothing else is attempted for the
    target: the header object is not made and the sink is not called
    again.  An exception of the four classes is logged at debug level
    and the call returns [None]; any other exception propagates. *)
Theorem write_pe_open_failure env cfg pe_table_name layer proc_offset pid h e :
  open_raises env h (pe_file_name proc_offset pid (cfg_base cfg)) = Some e ->
  let name := pe_file_name proc_offset pid (cfg_base cfg) in
  _write_pe env cfg pe_table_name layer proc_offset pid h
  = if caught_by_write_pe e
    then ([EvOpen name; EvRaise e;
           EvLog DEBUG (dump_failure_message (cfg_base cfg) e)], Ok None)
    else ([EvOpen name; EvRaise e], Raise e).
Proof.
  intros Hopen name. subst name.
  rewrite write_pe_unfold. unfold bind at 1, try_except.
  assert (Htry : write_pe_try env cfg pe_table_name layer proc_offset pid h
                 = ([EvOpen (pe_file_name proc_offset pid (cfg_base cfg));
                     EvRaise e], Raise e)).
  { unfold write_pe_try, bind at 1, self_open, bind at 1, call at 1.
    rewrite Hopen. reflexivity. }
  rewrite Htry. destruct (caught_by_write_pe e); reflexivity.
Qed.

Lemma write_pe_open_failure_witness :
  _write_pe read_only_env process_cfg "pe1" "layer_name_Process4"
    0xfa8000c9f040 4 []
  = ([ EvOpen "PE.0xfa8000c9f040.4.0x140000000.dmp";
       EvRaise (Exn IOError "Read-only file system");
       EvLog DEBUG
         "Unable to dump dll at offset 5368709120: Read-only file system" ],
     Ok None).
Proof.
  apply (@write_pe_open_failure read_only_env process_cfg "pe1"
           "layer_name_Process4" 0xfa8000c9f040 4 []
           (Exn IOError "Read-only file system")).
  reflexivity.
Defined.

(** ** Loops of generators *)

Lemma gen_result_eta {Y : Type} (g : gen_result Y) :
  GenResult (events g) (rows g) (raised g) = g.
Proof. destruct g; reflexivity. Qed.

(** A loop over [l1 ++ l2] is the loop over [l1] followed, unless it
    raised, by the loop over [l2]. *)
Lemma gen_for_app {A Y : Type} (l1 l2 : list A) (body : A -> Gen Y) h :
  gen_for (l1 ++ l2) body h =
  match raised (gen_for l1 body h) with
  | Some _ => gen_for l1 body h
  | None =>
      let g2 := gen_for l2 body (h ++ events (gen_for l1 body h)) in
      GenResult (events (gen_for l1 body h) ++ events g2)
        (rows (gen_for l1 body h) ++ rows g2) (raised g2)
  end.
Proof.
  revert h. induction l1 as [|x l1 IH]; intros h.
  - cbn. rewrite app_nil_r. symmetry. apply gen_result_eta.
  - cbn [app]. rewrite !gen_for_cons.
    destruct (raised (body x h)) eqn:Eb.
    + rewrite Eb. reflexivity.
    + cbv zeta. cbn [raised events rows]. rewrite IH.
      destruct (raised (gen_for l1 body (h ++ events (body x h)))) eqn:E1.
      * rewrite ?E1. reflexivity.
      * cbv zeta. cbn [raised events rows].
        rewrite <- !app_assoc. reflexivity.
Qed.

Lemma gen_for_events_forall {A Y : Type} (P : event -> Prop) (l : list A)
    (body : A -> Gen Y) h :
  (forall x h', In x l -> Forall P (events (body x h'))) ->
  Forall P (events (gen_for l body h)).
Proof.
  revert h. induction l as [|x l IH]; intros h Hbody.
  - constructor.
  - rewrite gen_for_cons.
    destruct (raised (body x h)).
    + apply Hbody. left. reflexivity.
    + cbv zeta. cbn [events]. apply Forall_app. split.
      * apply Hbody. left. reflexivity.
      * apply IH. intros y h' Hy. apply Hbody. right. exact Hy.
Qed.

(** Every row of a loop was yielded by one run of the body, whose
    events are a segment of the events of the loop. *)
Lemma gen_for_row_origin {A Y : Type} (l : list A) (body : A -> Gen Y) h y :
  In y (rows (gen_for l body h)) ->
  exists x d1 d2,
    In x l /\
    In y (rows (body x (h ++ d1))) /\
    events (gen_for l body h) = d1 ++ events (body x (h ++ d1)) ++ d2.
Proof.
  revert h. induction l as [|x l IH]; intros h Hin.
  - destruct Hin.
  - rewrite gen_for_cons in *.
    destruct (raised (body x h)) eqn:Eb.
    + exists x, [], []. rewrite !app_nil_r. cbn [app].
      repeat split; [left; reflexivity | exact Hin].
    + cbv zeta in *. cbn [rows events] in *.
      apply in_app_or in Hin. destruct Hin as [Hin | Hin].
      * exists x, [], (events (gen_for l body (h ++ events (body x h)))).
        rewrite app_nil_r. cbn [app].
        repeat split; [left; reflexivity | exact Hin].
      * destruct (IH _ Hin) as (x' & d1 & d2 & Hx' & Hy & Hev).
        exists x', (events (body x h) ++ d1), d2.
        rewrite <- (app_assoc h) in Hy, Hev.
        split; [right; exact Hx' |]. split; [exact Hy |].
        rewrite Hev, <- app_assoc. reflexivity.
Qed.

(** ** One process of the loop of [_dump_processes] *)

Lemma count_logs_cons_call l ev d :
  (forall lv msg, ev <> EvLog lv msg) ->
  count_logs l (ev :: d) = count_logs l d.
Proof.
  intros Hev. unfold count_logs. cbn [filter].
  destruct ev; try reflexivity. exfalso. eapply Hev. reflexivity.
Qed.

(** A sink that never reports the empty string as the reference of a
    file the plugin opened. *)
Definition references_nonempty (env : environment) (cfg : config) : Prop :=
  forall h offset pid,
    preferred_filename env h (pe_file_name offset pid (cfg_base cfg)) <> "".

Lemma process_body_accounted env cfg pe_table_name proc h :
  references_nonempty env cfg ->
  raised (process_body env cfg pe_table_name proc h) = None ->
  (List.length (rows (process_body env cfg pe_table_name proc h))
   + count_logs DEBUG (events (process_body env cfg pe_table_name proc h))
   = 1)%nat /\
  count_logs WARNING (events (process_body env cfg pe_table_name proc h))
    = 0%nat /\
  count_logs ERROR (events (process_body env cfg pe_table_name proc h))
    = 0%nat.
Proof.
  intros Hrefs. rewrite process_body_unfold.
  destruct (add_process_layer proc) as [e|layer]; [discriminate|].
  cbv zeta. cbn [raised rows events].
  destruct (_write_pe env cfg pe_table_name layer (vol_offset proc)
              (UniqueProcessId proc)
              (h ++ [EvAddProcessLayer (vol_offset proc)]))
    as [d r] eqn:Hrun.
  cbn [fst snd]. intros Hraised.
  destruct (write_pe_log_counts _ _ _ _ _ _ _ _ _ Hrun) as (Hd & Hw & He).
  rewrite !count_logs_cons_call by discriminate.
  rewrite Hd, Hw, He.
  destruct r as [[f|]|e]; [| |discriminate]; repeat split.
  apply write_pe_success_inv in Hrun. cbv zeta in Hrun.
  destruct Hrun as (body & _ & _ & _ & Hf).
  assert (Ht : truthy_str f = true)
    by (apply truthy_str_nonempty; rewrite Hf; apply Hrefs).
  cbn [rows_of_outcome]. rewrite Ht. reflexivity.
Qed.

Lemma gen_for_accounted env cfg pe_table_name procs h :
  references_nonempty env cfg ->
  raised (gen_for procs (process_body env cfg pe_table_name) h) = None ->
  (List.length (rows (gen_for procs (process_body env cfg pe_table_name) h))
   + count_logs DEBUG
       (events (gen_for procs (process_body env cfg pe_table_name) h))
   = List.length procs)%nat /\
  count_logs WARNING
    (events (gen_for procs (process_body env cfg pe_table_name) h)) = 0%nat /\
  count_logs ERROR
    (events (gen_for procs (process_body env cfg pe_table_name) h)) = 0%nat.
Proof.
  intros Hrefs. revert h. induction procs as [|proc rest IH]; intros h.
  - intros _. repeat split.
  - rewrite gen_for_cons.
    destruct (raised (process_body env cfg pe_table_name proc h)) eqn:Eb.
    + rewrite Eb. discriminate.
    + cbv zeta. cbn [raised rows events]. intros Hrest.
      destruct (process_body_accounted _ _ _ _ _ Hrefs Eb) as (H1 & H2 & H3).
      destruct (IH _ Hrest) as (I1 & I2 & I3).
      rewrite List.length_app, !count_logs_app, H2, H3, I2, I3.
      cbn [List.length]. repeat split. lia.
Qed.

(** ** Process mode: the whole run *)

(** A process whose page tables cannot be read. *)
Definition paged_out_process : EPROCESS := {|
  vol_offset := 0xfa8001a44b30;
  UniqueProcessId := 700;
  ImageFileName := "lsass.exe";
  add_process_layer :=
    inl (Exn VolatilityException "Invalid address 0x1ad000 in layer layer_name")
|}.

Definition paged_out_env : environment := {|
  BANG := "!";
  context_modules := fun _ => {| layer_name := "layer_name";
                                 symbol_table_name := "symbol_table_name1" |};
  create_pe_table := "pe1";
  open_raises := fun _ _ => None;
  context_object := fun _ _ _ =>
    inr {| reconstruct := {| yields := [(0, [x4d; x5a])]; ending := None |} |};
  seek_raises := fun _ _ _ => None;
  write_raises := fun _ _ _ => None;
  close_raises := fun _ _ => None;
  preferred_filename := fun _ name => name;
  session_layers_of := fun _ _ => [];
  layer_is_valid := fun _ _ => false;
  process_list := fun _ _ =>
    [system_process; paged_out_process; service_process]
|}.

Definition three_pid_cfg : config := {|
  cfg_kernel := "kernel";
  cfg_pid := Some [4; 700; 812];
  cfg_base := 0x140000000;
  cfg_kernel_module := false
|}.

(** X5: the call [proc.add_process_layer()] is not guarded.  When it
    raises for a process, whatever the class of the exception, the run
    ends with that exception: the rows of the processes before it were
    yielded, the process gets no log entry, and the processes after it
    are never looked at. *)
Theorem unreadable_process_ends_run env cfg h done proc rest e :
  cfg_kernel_module cfg = false ->
  truthy_opt_list (cfg_pid cfg) = true ->
  selected_processes env cfg = done ++ proc :: rest ->
  add_process_layer proc = inl e ->
  let before :=
    gen_for done (process_body env cfg (create_pe_table env))
      (h ++ setup ++ [enumerate_processes env cfg]) in
  raised before = None ->
  let r := _generator env cfg h in
  raised r = Some e /\
  rows r = map tree_row (rows before) /\
  events r = setup ++ enumerate_processes env cfg :: events before
               ++ [EvAddProcessLayer (vol_offset proc); EvRaise e].
Proof.
  intros Hk Hp Hsel Hlayer before Hbefore r. subst r.
  rewrite generator_process_mode by assumption. cbv zeta.
  rewrite dump_processes_unfold. cbv zeta. cbn [rows raised events].
  rewrite Hsel, gen_for_app.
  rewrite <- app_assoc. fold before. rewrite Hbefore. cbv zeta.
  cbn [rows raised events].
  rewrite gen_for_cons, process_body_unfold, Hlayer. cbn [raised rows events].
  rewrite app_nil_r. repeat split.
Qed.

Lemma unreadable_process_ends_run_witness :
  let before :=
    gen_for [system_process] (process_body paged_out_env three_pid_cfg "pe1")
      ([] ++ setup ++ [enumerate_processes paged_out_env three_pid_cfg]) in
  let e := Exn VolatilityException
             "Invalid address 0x1ad000 in layer layer_name" in
  let r := _generator paged_out_env three_pid_cfg [] in
  raised r = Some e /\
  rows r = map tree_row (rows before) /\
  events r = setup ++ enumerate_processes paged_out_env three_pid_cfg
               :: events before
               ++ [EvAddProcessLayer (vol_offset paged_out_process); EvRaise e].
Proof.
  apply (@unreadable_process_ends_run paged_out_env three_pid_cfg []
           [system_process] paged_out_process [service_process]).
  - reflexivity.
  - reflexivity.
  - reflexivity.
  - reflexivity.
  - reflexivity.
Defined.

(** X6: in process mode every target is accounted for.  When the run
    ends without an exception, and the sink reports no empty output
    reference (an empty one fails the test [if file_output]), each
    selected process gave either one row or one log entry at debug
    level: the rows and the debug entries together are as many as the
    selected processes, and nothing is logged at warning or error
    level. *)
Theorem every_process_accounted env cfg h :
  references_nonempty env cfg ->
  cfg_kernel_module cfg = false ->
  truthy_opt_list (cfg_pid cfg) = true ->
  raised (_generator env cfg h) = None ->
  let r := _generator env cfg h in
  (List.length (rows r) + count_logs DEBUG (events r)
   = List.length (selected_processes env cfg))%nat /\
  count_logs WARNING (events r) = 0%nat /\
  count_logs ERROR (events r) = 0%nat.
Proof.
  intros Hrefs Hk Hp. rewrite generator_process_mode by assumption. cbv zeta.
  rewrite dump_processes_unfold. cbv zeta. cbn [rows raised events].
  intros Hraised.
  destruct (gen_for_accounted _ _ _ _ _ Hrefs Hraised) as (H1 & H2 & H3).
  rewrite List.length_map.
  change (enumerate_processes env cfg :: ?l)
    with ([enumerate_processes env cfg] ++ l).
  rewrite !count_logs_app, H2, H3. repeat split.
  exact H1.
Qed.

Lemma every_process_accounted_witness :
  let r := _generator bad_header_env process_cfg [] in
  (List.length (rows r) + count_logs DEBUG (events r)
   = List.length (selected_processes bad_header_env process_cfg))%nat /\
  count_logs WARNING (events r) = 0%nat /\
  count_logs ERROR (events r) = 0%nat.
Proof.
  apply (every_process_accounted bad_header_env process_cfg []).
  - intros h offset pid. cbn. discriminate.
  - reflexivity.
  - reflexivity.
  - reflexivity.
Defined.

(** ** What a row stands for *)

Lemma process_body_row_origin env cfg pe_table_name proc h y :
  In y (rows (process_body env cfg pe_table_name proc h)) ->
  exists layer d f,
    add_process_layer proc = inr layer /\
    _write_pe env cfg pe_table_name layer (vol_offset proc)
      (UniqueProcessId proc) (h ++ [EvAddProcessLayer (vol_offset proc)])
      = (d, Ok (Some f)) /\
    f <> "" /\
    y = (UniqueProcessId proc, ImageFileName proc, f) /\
    events (process_body env cfg pe_table_name proc h)
      = EvAddProcessLayer (vol_offset proc) :: d.
Proof.
  rewrite process_body_unfold.
  destruct (add_process_layer proc) as [e|layer]; [intros []|].
  cbv zeta. cbn [rows events].
  destruct (_write_pe env cfg pe_table_name layer (vol_offset proc)
              (UniqueProcessId proc)
              (h ++ [EvAddProcessLayer (vol_offset proc)]))
    as [d [[f|]|e]] eqn:Hrun; cbn [fst snd rows_of_outcome]; try (intros []).
  destruct (truthy_str f) eqn:Ht; [|intros []].
  intros [<- | []]. exists layer, d, f.
  apply truthy_str_nonempty in Ht. repeat split; assumption.
Qed.

(** X7: a row is yielded only for a file that is complete.  For every
    row [(0, (pid, label, f))] of a run, in either mode, the events of
    the run contain, in one piece, the opening of a file named from an
    offset, [pid] and the base address, the making of the header object,
    the [seek] and [write] of every instruction of its generator, which
    ended normally, and a [close] of that file that did not raise; [f]
    is the [preferred_filename] the handle had right after that
    [close], and it is not empty. *)
Theorem reported_file_is_complete env cfg h level pid label f :
  In (level, (pid, label, f)) (rows (_generator env cfg h)) ->
  level = 0 /\
  f <> "" /\
  exists before after layer offset body,
    let name := pe_file_name offset pid (cfg_base cfg) in
    events (_generator env cfg h) = before ++ body ++ EvClose name :: after /\
    try_success env cfg (create_pe_table env) layer offset pid
      (h ++ before) body /\
    close_raises env ((h ++ before) ++ body) name = None /\
    f = preferred_filename env (h ++ before ++ body ++ [EvClose name]) name.
Proof.
  destruct (Bool.bool_dec (cfg_kernel_module cfg)
              (truthy_opt_list (cfg_pid cfg))) as [Hcfg | Hcfg].
  { rewrite generator_rejects by assumption. intros []. }
  destruct (cfg_kernel_module cfg) eqn:Hk.
  - assert (Hp : truthy_opt_list (cfg_pid cfg) = false)
      by (destruct (truthy_opt_list (cfg_pid cfg)); congruence).
    rewrite generator_kernel_mode by assumption. cbv zeta.
    cbn [rows events].
    destruct (first_match_or_none env (cfg_base cfg) (candidates env cfg))
      as [(l1 & c & l2 & Hl & Hnone & Hc) | Hnone].
    + rewrite Hl, dump_kernel_found by assumption.
      destruct (truthy_str c); [|intros []].
      cbv zeta.
      destruct (_write_pe env cfg (create_pe_table env) c 0 4
                  ((h ++ setup ++ [enumerate_sessions env cfg])
                     ++ probes (cfg_base cfg) (l1 ++ [c])))
        as [d [[f'|]|e]] eqn:Hrun; cbn [fst snd rows events rows_of_outcome];
        [| intros [] | intros []].
      destruct (truthy_str f') eqn:Ht; [|intros []].
      cbn [map tree_row In]. intros [[= <- <- <- <-] | []].
      split; [reflexivity|].
      split; [apply truthy_str_nonempty; exact Ht|].
      apply write_pe_success_inv in Hrun. cbv zeta in Hrun.
      destruct Hrun as (body & Hs & Hcl & -> & Hf).
      exists (setup ++ enumerate_sessions env cfg
                :: probes (cfg_base cfg) (l1 ++ [c])), [], c, 0, body.
      cbv zeta.
      replace (h ++ setup ++ enumerate_sessions env cfg
                 :: probes (cfg_base cfg) (l1 ++ [c]))
        with ((h ++ setup ++ [enumerate_sessions env cfg])
                ++ probes (cfg_base cfg) (l1 ++ [c]))
        by (rewrite <- !app_assoc; reflexivity).
      split; [reflexivity|]. split; [exact Hs|]. split; [exact Hcl|].
      rewrite Hf. f_equal.
      repeat (rewrite <- app_assoc || (progress cbn [app])). reflexivity.
    + rewrite dump_kernel_not_found by assumption. intros [].
  - assert (Hp : truthy_opt_list (cfg_pid cfg) = true)
      by (destruct (truthy_opt_list (cfg_pid cfg)); congruence).
    rewrite generator_process_mode by assumption. cbv zeta.
    rewrite dump_processes_unfold. cbv zeta. cbn [rows events].
    intros Hin. apply in_map_iff in Hin.
    destruct Hin as ([[pid' label'] f'] & [= <- <- <- <-] & Hin).
    split; [reflexivity|].
    apply gen_for_row_origin in Hin.
    destruct Hin as (proc & d1 & d2 & _ & Hin & Hev).
    apply process_body_row_origin in Hin.
    destruct Hin as (layer & d & f'' & _ & Hrun & Hne & [= -> -> ->] & Hbody).
    split; [exact Hne|].
    apply write_pe_success_inv in Hrun. cbv zeta in Hrun.
    destruct Hrun as (body & Hs & Hcl & -> & Hf).
    exists (setup ++ enumerate_processes env cfg :: d1
              ++ [EvAddProcessLayer (vol_offset proc)]),
      d2, layer, (vol_offset proc), body.
    cbv zeta.
    replace (h ++ setup ++ enumerate_processes env cfg :: d1
               ++ [EvAddProcessLayer (vol_offset proc)])
      with ((((h ++ setup) ++ [enumerate_processes env cfg]) ++ d1)
              ++ [EvAddProcessLayer (vol_offset proc)])
      by (rewrite <- !app_assoc; reflexivity).
    split.
    { rewrite Hev, Hbody. cbn [setup].
      repeat (rewrite <- app_assoc || (progress cbn [app])). reflexivity. }
    split; [exact Hs|]. split; [exact Hcl|].
    rewrite Hf. f_equal.
    repeat (rewrite <- app_assoc || (progress cbn [app])). reflexivity.
Qed.

Lemma reported_file_is_complete_witness :
  let r := _generator third_env example_cfg [] in
  let f := "PE.0x0.4.0x1000-1.dmp" in
  0 = 0 /\
  f <> "" /\
  exists before after layer offset body,
    let name := pe_file_name offset 4 4096 in
    events r = before ++ body ++ EvClose name :: after /\
    try_success third_env example_cfg "pe1" layer offset 4
      ([] ++ before) body /\
    close_raises third_env (([] ++ before) ++ body) name = None /\
    f = preferred_filename third_env
          ([] ++ before ++ body ++ [EvClose name]) name.
Proof.
  apply (@reported_file_is_complete third_env example_cfg [] 0 4
           "Kernel" "PE.0x0.4.0x1000-1.dmp").
  left. reflexivity.
Defined.

(** ** Names of the files of a run *)

Lemma in_order_In {A : Type} (l1 l2 : list A) :
  in_order l1 l2 -> forall x, In x l1 -> In x l2.
Proof.
  induction 1 as [|x l1 l2 _ IH|x l1 l2 _ IH]; intros y Hy.
  - exact Hy.
  - destruct Hy as [<- | Hy]; [left; reflexivity | right; apply IH, Hy].
  - right. apply IH, Hy.
Qed.

Lemma in_order_NoDup {A : Type} (l1 l2 : list A) :
  in_order l1 l2 -> NoDup l2 -> NoDup l1.
Proof.
  induction 1 as [|x l1 l2 Hsub IH|x l1 l2 Hsub IH]; intros Hnd.
  - constructor.
  - inversion Hnd as [|? ? Hx Hrest]; subst. constructor.
    + intros Hin. apply Hx. eapply in_order_In; eassumption.
    + apply IH, Hrest.
  - inversion Hnd; subst. apply IH. assumption.
Qed.

(** The names passed to [self.open], in the order of the calls. *)
Definition opened_names (evs : list event) : list string :=
  flat_map (fun ev => match ev with EvOpen n => [n] | _ => [] end) evs.

Lemma opened_names_app d1 d2 :
  opened_names (d1 ++ d2) = opened_names d1 ++ opened_names d2.
Proof. apply flat_map_app. Qed.

Lemma opened_names_write_events name items :
  opened_names (write_events name items) = [].
Proof. induction items as [|[o b] rest IH]; cbn; [reflexivity | exact IH]. Qed.

Lemma write_pe_opens_once env cfg pe_table_name layer proc_offset pid h d r :
  _write_pe env cfg pe_table_name layer proc_offset pid h = (d, r) ->
  opened_names d = [pe_file_name proc_offset pid (cfg_base cfg)].
Proof.
  intros Hrun. apply write_pe_cases in Hrun.
  assert (Hf : forall e body,
             try_failure env cfg pe_table_name layer proc_offset pid h e body ->
             opened_names body = [pe_file_name proc_offset pid (cfg_base cfg)]).
  { intros e body [ | | header applied pending tail _ _ _ Ht];
      try reflexivity.
    cbn [opened_names flat_map app]. fold (opened_names (write_events
      (pe_file_name proc_offset pid (cfg_base cfg)) applied ++ tail)).
    rewrite opened_names_app, opened_names_write_events.
    destruct Ht as [[_ ->] | (o & b & rest & _ & [-> | ->])]; reflexivity. }
  assert (Hs : forall body,
             try_success env cfg pe_table_name layer proc_offset pid h body ->
             opened_names body = [pe_file_name proc_offset pid (cfg_base cfg)]).
  { intros body (header & _ & _ & _ & ->).
    cbn [opened_names flat_map app]. fold (opened_names (write_events
      (pe_file_name proc_offset pid (cfg_base cfg))
      (yields (reconstruct header)))).
    rewrite opened_names_write_events. reflexivity. }
  destruct Hrun as [body e Hb _ | body e Hb _ | body Hb _ | body e Hb _];
    rewrite ?opened_names_app; erewrite ?Hf, ?Hs by eassumption; reflexivity.
Qed.

(** The name [_write_pe] asks for when it dumps a process. *)
Definition process_file_name (cfg : config) (proc : EPROCESS) : string :=
  pe_file_name (vol_offset proc) (UniqueProcessId proc) (cfg_base cfg).

Lemma process_file_names_NoDup cfg procs :
  NoDup (map vol_offset procs) ->
  NoDup (map (process_file_name cfg) procs).
Proof.
  induction procs as [|proc rest IH]; cbn [map]; intros Hnd.
  - constructor.
  - inversion Hnd as [|? ? Hx Hrest]; subst. constructor.
    + intros Hin. apply in_map_iff in Hin.
      destruct Hin as (q & Heq & Hq). unfold process_file_name in Heq.
      apply pe_file_name_inj in Heq. destruct Heq as (Hoff & _ & _).
      apply Hx. rewrite <- Hoff. apply in_map. exact Hq.
    + apply IH, Hrest.
Qed.

Lemma gen_for_opened_in_order env cfg pe_table_name procs h :
  in_order
    (opened_names (events (gen_for procs (process_body env cfg pe_table_name) h)))
    (map (process_file_name cfg) procs).
Proof.
  revert h. induction procs as [|proc rest IH]; intros h.
  - constructor.
  - rewrite gen_for_cons. cbn [map].
    assert (Hbody : opened_names
                      (events (process_body env cfg pe_table_name proc h)) = []
                    \/ opened_names
                         (events (process_body env cfg pe_table_name proc h))
                       = [process_file_name cfg proc]).
    { rewrite process_body_unfold.
      destruct (add_process_layer proc) as [e|layer]; [left; reflexivity|].
      right. cbv zeta. cbn [events].
      destruct (_write_pe env cfg pe_table_name layer (vol_offset proc)
                  (UniqueProcessId proc)
                  (h ++ [EvAddProcessLayer (vol_offset proc)]))
        as [d r] eqn:Hrun.
      cbn [fst opened_names flat_map app].
      exact (write_pe_opens_once _ _ _ _ _ _ _ _ _ Hrun). }
    destruct (raised (process_body env cfg pe_table_name proc h));
      cbv zeta; cbn [events]; rewrite ?opened_names_app;
      destruct Hbody as [-> | ->]; cbn [app].
    + apply in_order_none.
    + apply in_order_keep, in_order_none.
    + apply in_order_drop, IH.
    + apply in_order_keep, IH.
Qed.

(** Scenario A: three live processes, every dump succeeds. *)
Definition healthy_env : environment := {|
  BANG := "!";
  context_modules := fun _ => {| layer_name := "layer_name";
                                 symbol_table_name := "symbol_table_name1" |};
  create_pe_table := "pe1";
  open_raises := fun _ _ => None;
  context_object := fun _ _ _ =>
    inr {| reconstruct := {| yields := [(0, [x4d; x5a])]; ending := None |} |};
  seek_raises := fun _ _ _ => None;
  write_raises := fun _ _ _ => None;
  close_raises := fun _ _ => None;
  preferred_filename := fun _ name => name;
  session_layers_of := fun _ _ => [];
  layer_is_valid := fun _ _ => false;
  process_list := fun _ _ => [system_process; other_process; service_process]
|}.

(** X8: in process mode no file is opened twice.  When the selected
    processes are at pairwise different offsets, the names the run
    passes to [self.open] are pairwise different, whatever the process
    ids and the names of the processes are: no dump of the run asks for
    the file of another. *)
Theorem no_file_opened_twice env cfg h :
  cfg_kernel_module cfg = false ->
  truthy_opt_list (cfg_pid cfg) = true ->
  NoDup (map vol_offset (selected_processes env cfg)) ->
  NoDup (opened_names (events (_generator env cfg h))).
Proof.
  intros Hk Hp Hnd.
  rewrite generator_process_mode by assumption. cbv zeta.
  rewrite dump_processes_unfold. cbv zeta. cbn [events setup app].
  cbn [opened_names flat_map app].
  eapply in_order_NoDup.
  - apply gen_for_opened_in_order.
  - apply process_file_names_NoDup. exact Hnd.
Qed.

Lemma no_file_opened_twice_witness :
  NoDup (opened_names (events (_generator healthy_env process_cfg []))).
Proof.
  apply (no_file_opened_twice healthy_env process_cfg []).
  - reflexivity.
  - reflexivity.
  - cbn. repeat constructor; cbn; intuition discriminate.
Defined.

Example scenario_a :
  rows (_generator healthy_env process_cfg [])
  = [ (0, (4, "System", "PE.0xfa8000c9f040.4.0x140000000.dmp"));
      (0, (812, "svchost.exe", "PE.0xfa8001e3a060.812.0x140000000.dmp")) ].
Proof. reflexivity. Qed.

(** ** The events of a whole run *)

(** What an event of a run of [_generator] can be, given the
    configuration of the run. *)
Definition run_event (env : environment) (cfg : config) (ev : event) : Prop :=
  match ev with
  | EvSymbolTable sub_path filename => sub_path = "windows" /\ filename = "pe"
  | EvOpen n | EvSeek n _ | EvWrite n _ | EvClose n =>
      exists offset pid, n = pe_file_name offset pid (cfg_base cfg)
  | EvObject t o _ =>
      t = (create_pe_table env ++ BANG env ++ "_IMAGE_DOS_HEADER")%string /\
      o = cfg_base cfg
  | EvIsValid _ a => cfg_kernel_module cfg = true /\ a = cfg_base cfg
  | EvSessionLayers _ _ => cfg_kernel_module cfg = true
  | EvListProcesses _ _ | EvAddProcessLayer _ => cfg_kernel_module cfg = false
  | EvRaise _ => True
  | EvLog DEBUG _ => True
  | EvLog WARNING _ => cfg_kernel_module cfg = true
  | EvLog ERROR _ => cfg_kernel_module cfg = truthy_opt_list (cfg_pid cfg)
  end.

Lemma write_pe_run_events env cfg layer proc_offset pid h :
  Forall (run_event env cfg)
    (fst (_write_pe env cfg (create_pe_table env) layer proc_offset pid h)).
Proof.
  destruct (_write_pe env cfg (create_pe_table env) layer proc_offset pid h)
    as [d r] eqn:Hrun.
  apply write_pe_footprint in Hrun. cbn [fst].
  eapply Forall_impl; [|exact Hrun].
  intros ev Hev. destruct ev; cbn in *; try tauto;
    try (subst; eexists; eexists; reflexivity).
Qed.

Lemma probes_run_events env cfg layers :
  cfg_kernel_module cfg = true ->
  Forall (run_event env cfg) (probes (cfg_base cfg) layers).
Proof.
  intros Hk. induction layers as [|layer rest IH]; cbn; constructor.
  - split; [exact Hk | reflexivity].
  - exact IH.
Qed.

Lemma generator_run_events env cfg h :
  Forall (run_event env cfg) (events (_generator env cfg h)).
Proof.
  destruct (Bool.bool_dec (cfg_kernel_module cfg)
              (truthy_opt_list (cfg_pid cfg))) as [Hcfg | Hcfg].
  { rewrite generator_rejects by assumption. cbn [events setup app].
    repeat constructor. exact Hcfg. }
  destruct (cfg_kernel_module cfg) eqn:Hk.
  - assert (Hp : truthy_opt_list (cfg_pid cfg) = false)
      by (destruct (truthy_opt_list (cfg_pid cfg)); congruence).
    rewrite generator_kernel_mode by assumption. cbv zeta.
    cbn [events setup app].
    constructor; [split; reflexivity|]. constructor; [exact Hk|].
    destruct (first_match_or_none env (cfg_base cfg) (candidates env cfg))
      as [(l1 & c & l2 & Hl & Hnone & Hc) | Hnone].
    + rewrite Hl, dump_kernel_found by assumption.
      destruct (truthy_str c); cbv zeta; cbn [events];
        apply Forall_app; split;
        try (apply probes_run_events; exact Hk).
      * apply write_pe_run_events.
      * repeat constructor. exact Hk.
    + rewrite dump_kernel_not_found by assumption. cbn [events].
      apply Forall_app. split.
      * apply probes_run_events. exact Hk.
      * repeat constructor. exact Hk.
  - assert (Hp : truthy_opt_list (cfg_pid cfg) = true)
      by (destruct (truthy_opt_list (cfg_pid cfg)); congruence).
    rewrite generator_process_mode by assumption. cbv zeta.
    rewrite dump_processes_unfold. cbv zeta. cbn [events setup app].
    constructor; [split; reflexivity|]. constructor; [exact Hk|].
    apply gen_for_events_forall. intros proc h' _.
    rewrite process_body_unfold.
    destruct (add_process_layer proc) as [e|layer].
    + repeat constructor. exact Hk.
    + cbv zeta. cbn [events]. constructor; [exact Hk|].
      apply write_pe_run_events.
Qed.

(** X9: one base address for the whole run.  In every run, every header
    object is the DOS header of the PE symbol table made at the start of
    the run, at the configured base address; every query on a session
    layer asks for that address; and every file the run opens, writes
    or closes bears a name formatted with that address. *)
Theorem same_base_for_every_target env cfg h :
  let evs := events (_generator env cfg h) in
  (forall t o l, In (EvObject t o l) evs ->
     t = (create_pe_table env ++ BANG env ++ "_IMAGE_DOS_HEADER")%string /\
     o = cfg_base cfg) /\
  (forall l a, In (EvIsValid l a) evs -> a = cfg_base cfg) /\
  (forall n, In (EvOpen n) evs ->
     exists offset pid, n = pe_file_name offset pid (cfg_base cfg)) /\
  (forall n o, In (EvSeek n o) evs ->
     exists offset pid, n = pe_file_name offset pid (cfg_base cfg)) /\
  (forall n b, In (EvWrite n b) evs ->
     exists offset pid, n = pe_file_name offset pid (cfg_base cfg)) /\
  (forall n, In (EvClose n) evs ->
     exists offset pid, n = pe_file_name offset pid (cfg_base cfg)).
Proof.
  cbv zeta. pose proof (generator_run_events env cfg h) as Hall.
  rewrite Forall_forall in Hall.
  repeat split; intros;
    match goal with
    | H : In _ _ |- _ => apply Hall in H; cbn in H
    end; tauto.
Qed.

(** X10: the two modes do not mix, and the levels of the log tell the
    three outcomes apart.  A run enumerates processes and makes process
    layers only without the [kernel_module] flag; it enumerates and
    queries session layers, and logs a warning, only with the flag; and
    it logs an error only when the flag and the process-id filter are
    both active or both inactive. *)
Theorem modes_do_not_mix env cfg h :
  let evs := events (_generator env cfg h) in
  (forall l s, In (EvListProcesses l s) evs -> cfg_kernel_module cfg = false) /\
  (forall o, In (EvAddProcessLayer o) evs -> cfg_kernel_module cfg = false) /\
  (forall l s, In (EvSessionLayers l s) evs -> cfg_kernel_module cfg = true) /\
  (forall l a, In (EvIsValid l a) evs -> cfg_kernel_module cfg = true) /\
  (forall msg, In (EvLog WARNING msg) evs -> cfg_kernel_module cfg = true) /\
  (forall msg, In (EvLog ERROR msg) evs ->
     cfg_kernel_module cfg = truthy_opt_list (cfg_pid cfg)).
Proof.
  cbv zeta. pose proof (generator_run_events env cfg h) as Hall.
  rewrite Forall_forall in Hall.
  repeat split; intros;
    match goal with
    | H : In _ _ |- _ => apply Hall in H; cbn in H
    end; tauto.
Qed.

(** ** Kernel-module mode: a failed dump *)

Lemma write_pe_caught env cfg pe_table_name layer proc_offset pid h body e :
  write_pe_try env cfg pe_table_name layer proc_offset pid h = (body, Raise e) ->
  caught_by_write_pe e = true ->
  _write_pe env cfg pe_table_name layer proc_offset pid h
  = (body ++ [EvLog DEBUG (dump_failure_message (cfg_base cfg) e)], Ok None).
Proof.
  intros Htry Hcaught.
  rewrite write_pe_unfold. unfold bind at 1, try_except.
  rewrite Htry, Hcaught. unfold bind, vollog, ret. cbn [app].
  rewrite app_nil_r. reflexivity.
Qed.

(** Kernel-module mode; the base address is mapped in the session but
    holds no DOS header (scenario E). *)
Definition no_image_env : environment := {|
  BANG := "!";
  context_modules := fun _ => {| layer_name := "layer_name";
                                 symbol_table_name := "symbol_table_name1" |};
  create_pe_table := "pe1";
  open_raises := fun _ _ => None;
  context_object := fun _ _ _ =>
    inr {| reconstruct :=
             {| yields := [];
                ending := Some (Exn ValueError
                            "e_magic 0000 is not a valid DOS signature.") |} |};
  seek_raises := fun _ _ _ => None;
  write_raises := fun _ _ _ => None;
  close_raises := fun _ _ => None;
  preferred_filename := fun _ name => name;
  session_layers_of := fun _ _ => ["session0"; "session1"];
  layer_is_valid := fun _ _ => true;
  process_list := fun _ _ => []
|}.

(** X11: in kernel-module mode a dump that fails inside the [try] block
    with an exception of the four classes ends the run quietly.  The
    session layer was found, so there is no warning; the run yields no
    row and raises nothing; its last event, and its only log entry, is
    the debug entry that names the base address and the exception; the
    file that was opened is not closed. *)
Theorem kernel_dump_failure_is_debug_only env cfg h l1 c l2 body e :
  cfg_kernel_module cfg = true ->
  truthy_opt_list (cfg_pid cfg) = false ->
  candidates env cfg = l1 ++ c :: l2 ->
  (forall l, In l l1 -> layer_is_valid env l (cfg_base cfg) = false) ->
  layer_is_valid env c (cfg_base cfg) = true ->
  c <> "" ->
  write_pe_try env cfg (create_pe_table env) c 0 4
    (h ++ setup ++ enumerate_sessions env cfg
       :: probes (cfg_base cfg) (l1 ++ [c]))
    = (body, Raise e) ->
  caught_by_write_pe e = true ->
  let r := _generator env cfg h in
  rows r = [] /\
  raised r = None /\
  events r = setup ++ enumerate_sessions env cfg
               :: probes (cfg_base cfg) (l1 ++ [c]) ++ body
               ++ [EvLog DEBUG (dump_failure_message (cfg_base cfg) e)] /\
  count_logs DEBUG (events r) = 1%nat /\
  count_logs WARNING (events r) = 0%nat /\
  count_logs ERROR (events r) = 0%nat /\
  (forall x, ~ In (EvClose x) (events r)).
Proof.
  intros Hk Hp Hl Hnone Hc Hname Htry Hcaught r. subst r.
  pose proof (write_pe_caught _ _ _ _ _ _ _ _ _ Htry Hcaught) as Hrun.
  pose proof (write_pe_try_outcome _ _ _ _ _ _ _ _ _ Htry) as Hfail.
  cbv beta iota in Hfail.
  rewrite generator_kernel_mode by assumption. cbv zeta.
  rewrite Hl, dump_kernel_found by assumption.
  assert (Ht : truthy_str c = true) by (destruct c; [congruence|reflexivity]).
  rewrite Ht. cbv zeta.
  rewrite <- app_assoc. cbn [app setup] in *. rewrite Hrun.
  cbn [fst snd rows raised events rows_of_outcome raised_of_outcome map].
  pose proof (try_failure_events _ _ _ _ _ _ _ _ _ Hfail) as Hbody.
  split; [reflexivity|]. split; [reflexivity|]. split; [reflexivity|].
  change (EvSymbolTable "windows" "pe" :: enumerate_sessions env cfg :: ?l)
    with ([EvSymbolTable "windows" "pe"; enumerate_sessions env cfg] ++ l).
  rewrite !count_logs_app, !count_logs_probes,
    !(count_logs_try_events _ _ Hbody).
  repeat split.
  intros x Hin. apply in_app_or in Hin.
  destruct Hin as [[Hin | [Hin | []]] | Hin]; try discriminate.
  apply in_app_or in Hin. destruct Hin as [Hin | Hin].
  - unfold probes in Hin. apply in_map_iff in Hin.
    destruct Hin as (l & Heq & _). discriminate.
  - apply in_app_or in Hin. destruct Hin as [Hin | [Hin | []]].
    + eapply try_failure_no_close; eassumption.
    + discriminate.
Qed.

Lemma kernel_dump_failure_is_debug_only_witness :
  let e := Exn ValueError "e_magic 0000 is not a valid DOS signature." in
  let body := [ EvOpen "PE.0x0.4.0x1000.dmp";
                EvObject "pe1!_IMAGE_DOS_HEADER" 4096 "session0";
                EvRaise e ] in
  let r := _generator no_image_env example_cfg [] in
  rows r = [] /\
  raised r = None /\
  events r = setup ++ enumerate_sessions no_image_env example_cfg
               :: probes 4096 ([] ++ ["session0"]) ++ body
               ++ [EvLog DEBUG (dump_failure_message 4096 e)] /\
  count_logs DEBUG (events r) = 1%nat /\
  count_logs WARNING (events r) = 0%nat /\
  count_logs ERROR (events r) = 0%nat /\
  (forall x, ~ In (EvClose x) (events r)).
Proof.
  apply (@kernel_dump_failure_is_debug_only no_image_env example_cfg []
           [] "session0" ["session1"]).
  - reflexivity.
  - reflexivity.
  - reflexivity.
  - intros l [].
  - reflexivity.
  - discriminate.
  - reflexivity.
  - reflexivity.
Defined.
